(** * Bug-tracker client: a shallow embedding of the React front end

    The development follows the TypeScript sources file by file:
    the shared types ([types]), the service layer that builds the HTTP
    requests ([issueService], [projectService], [commentService],
    [authService]), the page components ([ProjectDetail], [Projects],
    [Dashboard], [IssueDetail]) and the session context ([AuthContext]).

    Modelling conventions.
    - A JavaScript string is a Rocq [string]: the sequence of the bytes of
      its UTF-8 encoding.
    - A JavaScript number that holds a count, an identifier or a page number
      is an integer [Z]; the one division of the program,
      [Math.ceil(count / 20)], is computed over the rationals.
    - [T | null] and optional fields are [option T].
    - An [async] handler is a computation in the monad [M]: it threads the
      component state, logs the effects it performs (toasts, HTTP requests,
      calls that start a loader) and may throw.  The settlement of the
      awaited promise is an argument of the handler.  React 19 batches the
      setter calls of a handler, so its state updates show as one step.
    - [localStorage] is a finite map from keys to strings. *)

From Stdlib Require Import ZArith QArith Qround Ascii String DecimalString.
From Stdlib Require Import DecimalPos DecimalZ.
From stdpp Require Import base option list gmap strings.

Local Open Scope string_scope.
Local Open Scope list_scope.
Local Open Scope Z_scope.

(** ** JavaScript primitives *)

Module Js.

(** ToBoolean, on the types the program tests. *)
Class Truthy (A : Type) := truthy : A -> bool.

#[export] Instance truthy_string : Truthy string :=
  fun s => match s with EmptyString => false | String _ _ => true end.

#[export] Instance truthy_number : Truthy Z :=
  fun n => negb (n =? 0).

(** Arrays are objects: always truthy, also when empty. *)
#[export] Instance truthy_array {A} : Truthy (list A) :=
  fun _ => true.

(** [null] and [undefined] are falsy. *)
#[export] Instance truthy_option {A} `{Truthy A} : Truthy (option A) :=
  fun o => match o with Some a => truthy a | None => false end.

(** [x || d] where [x] may be [undefined]. *)
Definition or_else {A} `{Truthy A} (x : option A) (d : A) : A :=
  match x with
  | Some a => if truthy a then a else d
  | None => d
  end.

(** [Number.prototype.toString] on an integer. *)
Definition toString (n : Z) : string :=
  NilZero.string_of_int (Z.to_int n).

(** [Math.ceil(a / b)]: the quotient is taken in the rationals. *)
Definition Math_ceil_div (a b : Z) : Z :=
  Qceiling (inject_Z a / inject_Z b).

(** *** String.prototype.trim

    [trim] removes the leading and trailing white space and line
    terminators of ECMAScript, here through their UTF-8 encodings. *)

Definition utf8 (bytes : list nat) : string :=
  string_of_list_ascii (map ascii_of_nat bytes).

Definition white_space : list string :=
  [ utf8 [9]%nat; (* U+0009 tab *)
    utf8 [10]%nat; (* U+000A line feed *)
    utf8 [11]%nat; (* U+000B vertical tab *)
    utf8 [12]%nat; (* U+000C form feed *)
    utf8 [13]%nat; (* U+000D carriage return *)
    utf8 [32]%nat; (* U+0020 space *)
    utf8 [194; 160]%nat;      (* U+00A0 no-break space *)
    utf8 [225; 154; 128]%nat; (* U+1680 *)
    utf8 [226; 128; 128]%nat; (* U+2000 *)
    utf8 [226; 128; 129]%nat;
    utf8 [226; 128; 130]%nat;
    utf8 [226; 128; 131]%nat;
    utf8 [226; 128; 132]%nat;
    utf8 [226; 128; 133]%nat;
    utf8 [226; 128; 134]%nat;
    utf8 [226; 128; 135]%nat;
    utf8 [226; 128; 136]%nat;
    utf8 [226; 128; 137]%nat;
    utf8 [226; 128; 138]%nat; (* U+200A *)
    utf8 [226; 128; 168]%nat; (* U+2028 line separator *)
    utf8 [226; 128; 169]%nat; (* U+2029 paragraph separator *)
    utf8 [226; 128; 175]%nat; (* U+202F *)
    utf8 [226; 129; 159]%nat; (* U+205F *)
    utf8 [227; 128; 128]%nat; (* U+3000 *)
    utf8 [239; 187; 191]%nat  (* U+FEFF *) ].

(** [strip_prefix p s] is what follows [p] in [s], when [s] starts with [p]. *)
Fixpoint strip_prefix (p s : string) : option string :=
  match p, s with
  | "", _ => Some s
  | String a p', String b s' =>
      if Ascii.eqb a b then strip_prefix p' s' else None
  | String _ _, "" => None
  end.

(** Remove one of the sequences [ws] from the front of [s]. *)
Fixpoint strip_one (ws : list string) (s : string) : option string :=
  match ws with
  | [] => None
  | w :: ws' =>
      match strip_prefix w s with
      | Some r => Some r
      | None => strip_one ws' s
      end
  end.

(** Remove sequences of [ws] from the front of [s] while there is one; each
    removal shortens [s], so [String.length s] rounds are enough. *)
Fixpoint drop_leading (ws : list string) (rounds : nat) (s : string)
  : string :=
  match rounds with
  | O => s
  | S n =>
      match strip_one ws s with
      | Some r => drop_leading ws n r
      | None => s
      end
  end.

Definition trimStart (s : string) : string :=
  drop_leading white_space (String.length s) s.

Definition trimEnd (s : string) : string :=
  String.rev
    (drop_leading (map String.rev white_space) (String.length s)
       (String.rev s)).

Definition trim (s : string) : string := trimEnd (trimStart s).

(** A string made of white space only (the empty string included). *)
Inductive white_space_only : string -> Prop :=
| wso_empty : white_space_only ""
| wso_more w s :
    In w white_space -> white_space_only s -> white_space_only (w +:+ s).

End Js.
Export Js.

(** ** types *)

Inductive IssueStatus := open | in_progress | resolved | closed.
Inductive IssuePriority := low | medium | high | critical.

Record User := {
  user_id : Z;
  username : string;
  email : string;
  first_name : string;
  last_name : string;
  full_name : string;
  is_active : bool;
  date_joined : string;
  user_created_at : string;
  user_updated_at : string;
}.

Inductive Role := member | admin.

Record ProjectMember := {
  pm_id : Z;
  pm_user : User;
  pm_role : Role;
  joined_at : string;
}.

Record Project := {
  project_id : Z;
  project_name : string;
  project_description : string;
  owner : string + User;
  member_count : Z;
  issue_count : Z;
  project_created_at : string;
  project_updated_at : string;
  members : option (list ProjectMember);
}.

Record Issue := {
  issue_id : Z;
  title : string;
  description : string;
  status : IssueStatus;
  priority : IssuePriority;
  issue_project : option Project;
  issue_project_name : option string;
  reporter : string + User;
  assignee : option (string + User);
  comment_count : Z;
  issue_created_at : string;
  issue_updated_at : string;
}.

Record Comment := {
  comment_id : Z;
  content : string;
  author : string + User;
  comment_created_at : string;
  comment_updated_at : string;
}.

Record Pagination := {
  count : Z;
  next : option string;
  previous : option string;
  page_size : Z;
  total_pages : Z;
  current_page : Z;
}.

Record ApiResponse (T : Type) := {
  success : bool;
  pagination : option Pagination;
  results : option (list T);
  data : option T;
}.
Arguments success {T}.
Arguments pagination {T}.
Arguments results {T}.
Arguments data {T}.

Record LoginCredentials := {
  login_username : string;
  login_password : string;
}.

Record RegisterData := {
  reg_username : string;
  reg_email : string;
  reg_password : string;
  reg_password_confirm : string;
}.

Record Tokens := {
  access : string;
  refresh : string;
}.

Record AuthResponse := {
  auth_user : User;
  tokens : Tokens;
  auth_message : string;
}.

Record CreateProjectData := {
  cp_name : string;
  cp_description : string;
}.

(** [assignee_id?: number | null]: absent, [null], or a number. *)
Record CreateIssueData := {
  ci_title : string;
  ci_description : string;
  ci_priority : IssuePriority;
  ci_status : IssueStatus;
  ci_assignee_id : option (option Z);
}.

(** Every field is optional.  The page passes the value of the [<select>]
    through [as any], so the [status] field carries the raw string. *)
Record UpdateIssueData := {
  ui_title : option string;
  ui_description : option string;
  ui_priority : option IssuePriority;
  ui_status : option string;
  ui_assignee_id : option (option Z);
}.

Record CreateCommentData := {
  cc_content : string;
}.

(** The value attribute of each status, as the [<option>] elements and the
    wire format spell it. *)
Definition status_value (s : IssueStatus) : string :=
  match s with
  | open => "open"
  | in_progress => "in_progress"
  | resolved => "resolved"
  | closed => "closed"
  end.

Definition priority_value (p : IssuePriority) : string :=
  match p with
  | low => "low"
  | medium => "medium"
  | high => "high"
  | critical => "critical"
  end.

(** The part of an axios error the client reads:
    [error.response?.data?.message] and [error.response?.data?.details]. *)
Record JsError := {
  response_message : option string;
  response_details : option (list (string * list string));
}.

(** ** URLSearchParams

    The parameter list keeps insertion order and duplicates; [toString] is
    the application/x-www-form-urlencoded serializer of the URL standard,
    and [parse] the matching parser, which a server applies to the query. *)

Module URLSearchParams.

Definition t := list (string * string).

Definition new : t := [].

Definition append (name value : string) (params : t) : t :=
  params ++ [(name, value)].

Definition in_range (lo hi : nat) (c : ascii) : bool :=
  (Nat.leb lo (nat_of_ascii c) && Nat.leb (nat_of_ascii c) hi)%bool.

(** Bytes the serializer leaves as they are: ASCII alphanumerics and
    [*], [-], [.], [_]. *)
Definition unreserved (c : ascii) : bool :=
  (in_range 48 57 c || in_range 65 90 c || in_range 97 122 c
   || Ascii.eqb c "*" || Ascii.eqb c "-" || Ascii.eqb c "."
   || Ascii.eqb c "_")%bool.

Definition hex_digit (n : nat) : ascii :=
  if Nat.ltb n 10 then ascii_of_nat (48 + n) else ascii_of_nat (55 + n).

Definition percent_encode_byte (c : ascii) : string :=
  String "%" (String (hex_digit (Nat.div (nat_of_ascii c) 16))
             (String (hex_digit (Nat.modulo (nat_of_ascii c) 16)) "")).

Definition serialize_byte (c : ascii) : string :=
  if Ascii.eqb c " " then "+"
  else if unreserved c then String c ""
  else percent_encode_byte c.

Fixpoint serialize_string (s : string) : string :=
  match s with
  | "" => ""
  | String c r => serialize_byte c +:+ serialize_string r
  end.

Definition serialize_pair (p : string * string) : string :=
  serialize_string p.1 +:+ "=" +:+ serialize_string p.2.

Fixpoint toString (params : t) : string :=
  match params with
  | [] => ""
  | [p] => serialize_pair p
  | p :: ps => serialize_pair p +:+ "&" +:+ toString ps
  end.

(** *** The parser *)

Definition hex_value (c : ascii) : option nat :=
  if in_range 48 57 c then Some (nat_of_ascii c - 48)%nat
  else if in_range 65 70 c then Some (nat_of_ascii c - 55)%nat
  else if in_range 97 102 c then Some (nat_of_ascii c - 87)%nat
  else None.

Fixpoint percent_decode (s : string) : string :=
  match s with
  | "" => ""
  | String c r =>
      if Ascii.eqb c "%" then
        match r with
        | String h (String l r2) =>
            match hex_value h, hex_value l with
            | Some a, Some b =>
                String (ascii_of_nat (16 * a + b)) (percent_decode r2)
            | _, _ => String c (percent_decode r)
            end
        | _ => String c (percent_decode r)
        end
      else String c (percent_decode r)
  end.

Fixpoint plus_to_space (s : string) : string :=
  match s with
  | "" => ""
  | String c r =>
      String (if Ascii.eqb c "+" then " "%char else c) (plus_to_space r)
  end.

Definition decode_string (s : string) : string :=
  percent_decode (plus_to_space s).

(** Split at every occurrence of [d]. *)
Fixpoint split_on (d : ascii) (s : string) : list string :=
  match s with
  | "" => [""]
  | String c r =>
      if Ascii.eqb c d then "" :: split_on d r
      else match split_on d r with
           | x :: xs => String c x :: xs
           | [] => [String c ""]
           end
  end.

(** Split at the first occurrence of [d], if there is one. *)
Fixpoint break_on (d : ascii) (s : string) : string * option string :=
  match s with
  | "" => ("", None)
  | String c r =>
      if Ascii.eqb c d then ("", Some r)
      else let '(a, b) := break_on d r in (String c a, b)
  end.

Definition parse_pair (seg : string) : string * string :=
  let '(n, v) := break_on "=" seg in
  (decode_string n, decode_string (default "" v)).

Definition parse (query : string) : t :=
  map parse_pair (filter (fun seg => seg <> "") (split_on "&" query)).

(** The query of a URL: what follows the first [?]. *)
Definition query_of (url : string) : string :=
  default "" (break_on "?" url).2.

(** Whether every byte of [s] satisfies [ok]. *)
Fixpoint all_bytes (ok : ascii -> bool) (s : string) : bool :=
  match s with
  | "" => true
  | String c r => ok c && all_bytes ok r
  end.

(** The bytes of a path with a serialized query: the unreserved ones, the
    [+] and [%] of the encoding, and the delimiters [/], [?], [&], [=]. *)
Definition url_byte (c : ascii) : bool :=
  unreserved c || Ascii.eqb c "+" || Ascii.eqb c "%" || Ascii.eqb c "/"
  || Ascii.eqb c "?" || Ascii.eqb c "&" || Ascii.eqb c "=".

(** Whether the byte [d] occurs in [s]. *)
Fixpoint occurs (d : ascii) (s : string) : bool :=
  match s with
  | "" => false
  | String c r => Ascii.eqb c d || occurs d r
  end.

End URLSearchParams.

(** ** Requests, effects and the handler monad *)

Inductive Method := GET | POST | PUT | PATCH | DELETE.

(** The JSON payload of a request, by the type of the object passed to
    axios. *)
Inductive Body :=
| body_login (c : LoginCredentials)
| body_register (d : RegisterData)
| body_create_project (d : CreateProjectData)
| body_create_issue (d : CreateIssueData)
| body_update_issue (d : UpdateIssueData)
| body_create_comment (d : CreateCommentData).

Record Request := {
  method : Method;
  url : string;
  body : option Body;
}.

(** Loaders a handler calls without awaiting them. *)
Inductive Loader :=
| reload_project | reload_issues | reload_projects | reload_issue_data.

Inductive Effect :=
| http (r : Request)
| toast_success (msg : string)
| toast_error (msg : string)
| console_error (msg : string)
| prevent_default
| scroll_to_top
| start (l : Loader).

(** A settled promise. *)
Inductive Result (A : Type) :=
| Fulfilled (a : A)
| Rejected (e : JsError).
Arguments Fulfilled {A}.
Arguments Rejected {A}.

(** A handler over component state [S]: the outcome, the state it leaves and
    the effects it performed, in order.  A rejection keeps the state and the
    log reached when it was thrown. *)
Definition M (S A : Type) : Type := S -> Result A * S * list Effect.

#[export] Instance M_ret {S} : MRet (M S) :=
  fun A a s => (Fulfilled a, s, []).

#[export] Instance M_bind {S} : MBind (M S) :=
  fun A B k m s =>
    match m s with
    | (Fulfilled a, s1, l1) =>
        let '(r, s2, l2) := k a s1 in (r, s2, l1 ++ l2)
    | (Rejected e, s1, l1) => (Rejected e, s1, l1)
    end.

Definition get {S} : M S S := fun s => (Fulfilled s, s, []).

(** A React state setter. *)
Definition modify {S} (f : S -> S) : M S unit :=
  fun s => (Fulfilled tt, f s, []).

Definition emit {S} (e : Effect) : M S unit :=
  fun s => (Fulfilled tt, s, [e]).

Definition throw {S A} (e : JsError) : M S A :=
  fun s => (Rejected e, s, []).

(** [await] of a request: the request goes out, the promise settles. *)
Definition await {S A} (r : Request) (settled : Result A) : M S A :=
  fun s => (settled, s, [http r]).

(** [try { body } catch (error) { handler error }] *)
Definition try_catch {S A} (body : M S A) (handler : JsError -> M S A)
  : M S A :=
  fun s =>
    match body s with
    | (Fulfilled a, s1, l1) => (Fulfilled a, s1, l1)
    | (Rejected e, s1, l1) =>
        let '(r, s2, l2) := handler e s1 in (r, s2, l1 ++ l2)
    end.

(** [... finally { fin }] *)
Definition finally {S A} (body : M S A) (fin : M S unit) : M S A :=
  fun s =>
    let '(r, s1, l1) := body s in
    match fin s1 with
    | (Fulfilled _, s2, l2) => (r, s2, l1 ++ l2)
    | (Rejected e, s2, l2) => (Rejected e, s2, l1 ++ l2)
    end.

(** [await Promise.all([a, b])]: both calls are made; the result is the pair
    of the values, or a rejection when one of them rejects (that of [a] when
    both do: the order of settlement is not modelled). *)
Definition Promise_all {S A B} (a : M S A) (b : M S B) : M S (A * B) :=
  fun s =>
    let '(ra, s1, l1) := a s in
    let '(rb, s2, l2) := b s1 in
    (match ra, rb with
     | Fulfilled x, Fulfilled y => Fulfilled (x, y)
     | Rejected e, _ => Rejected e
     | Fulfilled _, Rejected e => Rejected e
     end, s2, l1 ++ l2).

Definition state_of {S A} (x : Result A * S * list Effect) : S := x.1.2.
Definition effects_of {S A} (x : Result A * S * list Effect) : list Effect :=
  x.2.
Definition outcome_of {S A} (x : Result A * S * list Effect) : Result A :=
  x.1.1.

(** The requests among the effects of a run. *)
Definition requests (l : list Effect) : list Request :=
  omap (fun e => match e with http r => Some r | _ => None end) l.

(** The texts of the error toasts and of the success toasts of a run. *)
Definition error_toasts (l : list Effect) : list string :=
  omap (fun e => match e with toast_error m => Some m | _ => None end) l.

Definition success_toasts (l : list Effect) : list string :=
  omap (fun e => match e with toast_success m => Some m | _ => None end) l.

(** The loaders started in a run. *)
Definition started (l : list Effect) : list Loader :=
  omap (fun e => match e with start x => Some x | _ => None end) l.

(** The JSON object a body serializes to, as its members in order:
    [JSON.stringify] leaves out the fields that are [undefined] and writes
    [null] for the ones that are [null]. *)
Inductive json_value :=
| j_null
| j_number (n : Z)
| j_string (s : string).

Definition field {A} (key : string) (to_json : A -> json_value)
    (v : option A) : list (string * json_value) :=
  match v with
  | Some x => [(key, to_json x)]
  | None => []
  end.

Definition nullable_number (v : option Z) : json_value :=
  match v with
  | Some n => j_number n
  | None => j_null
  end.

Definition priority_json (p : IssuePriority) : json_value :=
  j_string (priority_value p).

Definition body_json (b : Body) : list (string * json_value) :=
  match b with
  | body_login c =>
      [("username", j_string (login_username c));
       ("password", j_string (login_password c))]
  | body_register d =>
      [("username", j_string (reg_username d));
       ("email", j_string (reg_email d));
       ("password", j_string (reg_password d));
       ("password_confirm", j_string (reg_password_confirm d))]
  | body_create_project d =>
      [("name", j_string (cp_name d));
       ("description", j_string (cp_description d))]
  | body_create_issue d =>
      [("title", j_string (ci_title d));
       ("description", j_string (ci_description d));
       ("priority", priority_json (ci_priority d));
       ("status", j_string (status_value (ci_status d)))]
        ++ field "assignee_id" nullable_number (ci_assignee_id d)
  | body_update_issue d =>
      field "title" j_string (ui_title d)
        ++ field "description" j_string (ui_description d)
        ++ field "priority" priority_json (ui_priority d)
        ++ field "status" j_string (ui_status d)
        ++ field "assignee_id" nullable_number (ui_assignee_id d)
  | body_create_comment d => [("content", j_string (cc_content d))]
  end.

Definition body_keys (b : Body) : list string := fst <$> body_json b.

(** ** services *)

Module api.

Definition get {S A} (path : string) : Result A -> M S A :=
  await {| method := GET; url := path; body := None |}.

Definition post {S A} (path : string) (b : option Body) : Result A -> M S A :=
  await {| method := POST; url := path; body := b |}.

Definition patch {S A} (path : string) (b : option Body)
  : Result A -> M S A :=
  await {| method := PATCH; url := path; body := b |}.

Definition delete {S A} (path : string) : Result A -> M S A :=
  await {| method := DELETE; url := path; body := None |}.

End api.

Module issueService.

(** [page: number = 1, search: string = ''] *)
Definition getProjectIssues {S} (projectId : Z) (page : option Z)
    (search : option string)
  : Result (ApiResponse Issue) -> M S (ApiResponse Issue) :=
  let page := default 1 page in
  let search := default "" search in
  let params := URLSearchParams.new in
  let params := URLSearchParams.append "page" (toString page) params in
  let params :=
    if truthy search then URLSearchParams.append "search" search params
    else params in
  api.get ("/projects/" +:+ toString projectId +:+ "/issues/?"
             +:+ URLSearchParams.toString params).

Definition getIssue {S} (projectId issueId : Z)
  : Result Issue -> M S Issue :=
  api.get ("/projects/" +:+ toString projectId +:+ "/issues/"
             +:+ toString issueId +:+ "/").

Definition createIssue {S} (projectId : Z) (d : CreateIssueData)
  : Result Issue -> M S Issue :=
  api.post ("/projects/" +:+ toString projectId +:+ "/issues/")
    (Some (body_create_issue d)).

Definition updateIssue {S} (projectId issueId : Z) (d : UpdateIssueData)
  : Result Issue -> M S Issue :=
  api.patch ("/projects/" +:+ toString projectId +:+ "/issues/"
               +:+ toString issueId +:+ "/")
    (Some (body_update_issue d)).

Definition getMyIssues {S}
  : Result (ApiResponse Issue) -> M S (ApiResponse Issue) :=
  api.get "/my-issues/".

Definition deleteIssue {S} (projectId issueId : Z)
  : Result unit -> M S unit :=
  api.delete ("/projects/" +:+ toString projectId +:+ "/issues/"
                +:+ toString issueId +:+ "/").

End issueService.

Module projectService.

Definition getProjects {S}
  : Result (ApiResponse Project) -> M S (ApiResponse Project) :=
  api.get "/projects/".

Definition getProject {S} (id : Z) : Result Project -> M S Project :=
  api.get ("/projects/" +:+ toString id +:+ "/").

Definition createProject {S} (d : CreateProjectData)
  : Result Project -> M S Project :=
  api.post "/projects/" (Some (body_create_project d)).

End projectService.

Module commentService.

Definition getComments {S} (projectId issueId : Z)
  : Result (list Comment) -> M S (list Comment) :=
  api.get ("/projects/" +:+ toString projectId +:+ "/issues/"
             +:+ toString issueId +:+ "/comments/").

Definition createComment {S} (projectId issueId : Z) (d : CreateCommentData)
  : Result Comment -> M S Comment :=
  api.post ("/projects/" +:+ toString projectId +:+ "/issues/"
              +:+ toString issueId +:+ "/add_comment/")
    (Some (body_create_comment d)).

Definition updateComment {S} (projectId issueId commentId : Z)
    (d : CreateCommentData) : Result Comment -> M S Comment :=
  api.patch ("/projects/" +:+ toString projectId +:+ "/issues/"
               +:+ toString issueId +:+ "/comments/"
               +:+ toString commentId +:+ "/")
    (Some (body_create_comment d)).

Definition deleteComment {S} (projectId issueId commentId : Z)
  : Result unit -> M S unit :=
  api.delete ("/projects/" +:+ toString projectId +:+ "/issues/"
                +:+ toString issueId +:+ "/comments/"
                +:+ toString commentId +:+ "/").

End commentService.

Module authService.

Definition login {S} (c : LoginCredentials)
  : Result AuthResponse -> M S AuthResponse :=
  api.post "/auth/login/" (Some (body_login c)).

Definition register {S} (d : RegisterData)
  : Result AuthResponse -> M S AuthResponse :=
  api.post "/auth/register/" (Some (body_register d)).

Definition logout {S} : Result unit -> M S unit :=
  api.post "/auth/logout/" None.

End authService.

(** ** pages/ProjectDetail

    [id] is [Number(id)] of the route parameter. *)

Module ProjectDetail.

Record State := {
  project : option Project;
  issues : list Issue;
  isLoading : bool;
  showModal : bool;
  formData : CreateIssueData;
  isSubmitting : bool;
  currentPage : Z;
  totalPages : Z;
  searchQuery : string;
  searchInput : string;
}.

Definition empty_form : CreateIssueData :=
  {| ci_title := ""; ci_description := ""; ci_priority := medium;
     ci_status := open; ci_assignee_id := None |}.

(** The [useState] initial values. *)
Definition initial : State :=
  {| project := None; issues := []; isLoading := true; showModal := false;
     formData := empty_form; isSubmitting := false; currentPage := 1;
     totalPages := 1; searchQuery := ""; searchInput := "" |}.

Definition setProject (v : option Project) : M State unit :=
  modify (fun s =>
    {| project := v; issues := issues s; isLoading := isLoading s;
       showModal := showModal s; formData := formData s;
       isSubmitting := isSubmitting s; currentPage := currentPage s;
       totalPages := totalPages s; searchQuery := searchQuery s;
       searchInput := searchInput s |}).

Definition setIssues (v : list Issue) : M State unit :=
  modify (fun s =>
    {| project := project s; issues := v; isLoading := isLoading s;
       showModal := showModal s; formData := formData s;
       isSubmitting := isSubmitting s; currentPage := currentPage s;
       totalPages := totalPages s; searchQuery := searchQuery s;
       searchInput := searchInput s |}).

Definition setIsLoading (v : bool) : M State unit :=
  modify (fun s =>
    {| project := project s; issues := issues s; isLoading := v;
       showModal := showModal s; formData := formData s;
       isSubmitting := isSubmitting s; currentPage := currentPage s;
       totalPages := totalPages s; searchQuery := searchQuery s;
       searchInput := searchInput s |}).

Definition setShowModal (v : bool) : M State unit :=
  modify (fun s =>
    {| project := project s; issues := issues s; isLoading := isLoading s;
       showModal := v; formData := formData s;
       isSubmitting := isSubmitting s; currentPage := currentPage s;
       totalPages := totalPages s; searchQuery := searchQuery s;
       searchInput := searchInput s |}).

Definition setFormData (v : CreateIssueData) : M State unit :=
  modify (fun s =>
    {| project := project s; issues := issues s; isLoading := isLoading s;
       showModal := showModal s; formData := v;
       isSubmitting := isSubmitting s; currentPage := currentPage s;
       totalPages := totalPages s; searchQuery := searchQuery s;
       searchInput := searchInput s |}).

Definition setIsSubmitting (v : bool) : M State unit :=
  modify (fun s =>
    {| project := project s; issues := issues s; isLoading := isLoading s;
       showModal := showModal s; formData := formData s;
       isSubmitting := v; currentPage := currentPage s;
       totalPages := totalPages s; searchQuery := searchQuery s;
       searchInput := searchInput s |}).

Definition setCurrentPage (v : Z) : M State unit :=
  modify (fun s =>
    {| project := project s; issues := issues s; isLoading := isLoading s;
       showModal := showModal s; formData := formData s;
       isSubmitting := isSubmitting s; currentPage := v;
       totalPages := totalPages s; searchQuery := searchQuery s;
       searchInput := searchInput s |}).

Definition setTotalPages (v : Z) : M State unit :=
  modify (fun s =>
    {| project := project s; issues := issues s; isLoading := isLoading s;
       showModal := showModal s; formData := formData s;
       isSubmitting := isSubmitting s; currentPage := currentPage s;
       totalPages := v; searchQuery := searchQuery s;
       searchInput := searchInput s |}).

Definition setSearchQuery (v : string) : M State unit :=
  modify (fun s =>
    {| project := project s; issues := issues s; isLoading := isLoading s;
       showModal := showModal s; formData := formData s;
       isSubmitting := isSubmitting s; currentPage := currentPage s;
       totalPages := totalPages s; searchQuery := v;
       searchInput := searchInput s |}).

Definition loadProject (id : Z) (settled : Result Project) : M State unit :=
  finally
    (try_catch
       (projectData ← projectService.getProject id settled;
        setProject (Some projectData))
       (fun error =>
          emit (console_error "Failed to load project:");;
          emit (toast_error "Failed to load project")))
    (setIsLoading false).

Definition loadIssues (id : Z) (settled : Result (ApiResponse Issue))
  : M State unit :=
  s ← get;
  try_catch
    (issuesData ← issueService.getProjectIssues id (Some (currentPage s))
                    (Some (searchQuery s)) settled;
     setIssues (or_else (results issuesData) []);;
     setTotalPages
       (Math_ceil_div (or_else (count <$> pagination issuesData) 0) 20))
    (fun error =>
       emit (console_error "Failed to load issues:");;
       emit (toast_error "Failed to load issues")).

Definition handleSubmit (id : Z) (settled : Result Issue) : M State unit :=
  s ← get;
  emit prevent_default;;
  setIsSubmitting true;;
  finally
    (try_catch
       (_ ← issueService.createIssue id (formData s) settled;
        emit (toast_success "Issue created successfully");;
        setShowModal false;;
        setFormData empty_form;;
        setCurrentPage 1;;
        emit (start reload_issues);;
        emit (start reload_project))
       (fun error =>
          emit (console_error "Failed to create issue:");;
          emit (toast_error "Failed to create issue")))
    (setIsSubmitting false).

Definition handleSearch : M State unit :=
  s ← get;
  emit prevent_default;;
  setSearchQuery (searchInput s);;
  setCurrentPage 1.

Definition handlePageChange (page : Z) : M State unit :=
  setCurrentPage page;;
  emit scroll_to_top.

(** The list part of the page, which [render] below draws once the early
    returns are passed: the empty state, worded for a search when
    [searchQuery] is not empty, or the rows. *)
Inductive ListView :=
| no_issues (searching : bool)
| issue_rows (rows : list Issue).

Definition list_area (s : State) : ListView :=
  if (length (issues s) =? 0)%nat then no_issues (truthy (searchQuery s))
  else issue_rows (issues s).

(** The dependencies of the effect that calls [loadIssues]:
    [[id, currentPage, searchQuery]], of which [id] is fixed here.  After
    the mount, the effect runs again when a dependency has changed. *)
Definition issues_deps (s : State) : Z * string :=
  (currentPage s, searchQuery s).

Definition issues_effect_reruns (before after : State) : bool :=
  negb (bool_decide (issues_deps before = issues_deps after)).

(** The pagination controls.  They sit in the branch of the non-empty
    list, under [totalPages > 1]: Previous calls
    [handlePageChange(currentPage - 1)] and is disabled on page 1, each
    number calls [handlePageChange(page)], Next calls
    [handlePageChange(currentPage + 1)] and is disabled on the page
    [totalPages]. *)
Record PaginationBar := {
  previous_disabled : bool;
  previous_page : Z;
  numbers : list Z;
  next_disabled : bool;
  next_page : Z;
}.

Definition pagination_bar (s : State) : option PaginationBar :=
  if (length (issues s) =? 0)%nat then None
  else if 1 <? totalPages s then
    Some {| previous_disabled := currentPage s =? 1;
            previous_page := currentPage s - 1;
            numbers := map (fun i => Z.of_nat i + 1)
                         (seq 0 (Z.to_nat (totalPages s)));
            next_disabled := currentPage s =? totalPages s;
            next_page := currentPage s + 1 |}
  else None.

(** The pages a click on the bar can ask for: a disabled button does not
    fire. *)
Definition clickable (bar : PaginationBar) : list Z :=
  (if previous_disabled bar then [] else [previous_page bar])
    ++ numbers bar
    ++ (if next_disabled bar then [] else [next_page bar]).

(** What the component returns: [Loading...] while [isLoading],
    [Project not found] without a project, and otherwise the page with its
    list part, its pagination bar if any and, when [showModal], the modal
    with the form. *)
Inductive View :=
| loading_view
| project_not_found
| project_view (p : Project) (list : ListView) (bar : option PaginationBar)
    (modal : option CreateIssueData).

Definition render (s : State) : View :=
  if isLoading s then loading_view
  else match project s with
       | None => project_not_found
       | Some p =>
           project_view p (list_area s) (pagination_bar s)
             (if showModal s then Some (formData s) else None)
       end.

End ProjectDetail.

(** ** pages/Projects *)

Module Projects.

Record State := {
  projects : list Project;
  isLoading : bool;
  showModal : bool;
  formData : CreateProjectData;
  isSubmitting : bool;
}.

Definition empty_form : CreateProjectData :=
  {| cp_name := ""; cp_description := "" |}.

Definition initial : State :=
  {| projects := []; isLoading := true; showModal := false;
     formData := empty_form; isSubmitting := false |}.

Definition setProjects (v : list Project) : M State unit :=
  modify (fun s =>
    {| projects := v; isLoading := isLoading s; showModal := showModal s;
       formData := formData s; isSubmitting := isSubmitting s |}).

Definition setIsLoading (v : bool) : M State unit :=
  modify (fun s =>
    {| projects := projects s; isLoading := v; showModal := showModal s;
       formData := formData s; isSubmitting := isSubmitting s |}).

Definition setShowModal (v : bool) : M State unit :=
  modify (fun s =>
    {| projects := projects s; isLoading := isLoading s; showModal := v;
       formData := formData s; isSubmitting := isSubmitting s |}).

Definition setFormData (v : CreateProjectData) : M State unit :=
  modify (fun s =>
    {| projects := projects s; isLoading := isLoading s;
       showModal := showModal s; formData := v;
       isSubmitting := isSubmitting s |}).

Definition setIsSubmitting (v : bool) : M State unit :=
  modify (fun s =>
    {| projects := projects s; isLoading := isLoading s;
       showModal := showModal s; formData := formData s;
       isSubmitting := v |}).

Definition loadProjects (settled : Result (ApiResponse Project))
  : M State unit :=
  finally
    (try_catch
       (response ← projectService.getProjects settled;
        setProjects (or_else (results response) []))
       (fun error =>
          emit (console_error "Failed to load projects:");;
          emit (toast_error "Failed to load projects")))
    (setIsLoading false).

Definition handleSubmit (settled : Result Project) : M State unit :=
  s ← get;
  emit prevent_default;;
  setIsSubmitting true;;
  finally
    (try_catch
       (_ ← projectService.createProject (formData s) settled;
        emit (toast_success "Project created successfully");;
        setShowModal false;;
        setFormData empty_form;;
        emit (start reload_projects))
       (fun error =>
          emit (console_error "Failed to create project:");;
          emit (toast_error "Failed to create project")))
    (setIsSubmitting false).

(** The list part of the page: the empty state or the cards. *)
Inductive ListView :=
| no_projects_yet
| project_cards (cards : list Project).

Definition list_area (s : State) : ListView :=
  if (length (projects s) =? 0)%nat then no_projects_yet
  else project_cards (projects s).

(** What the component returns: [Loading...] while [isLoading], otherwise
    the page with its list part and, when [showModal], the modal with the
    form. *)
Inductive View :=
| loading_view
| projects_view (list : ListView) (modal : option CreateProjectData).

Definition render (s : State) : View :=
  if isLoading s then loading_view
  else projects_view (list_area s)
         (if showModal s then Some (formData s) else None).

End Projects.

(** ** pages/Dashboard *)

Module Dashboard.

Record State := {
  projects : list Project;
  myIssues : list Issue;
  isLoading : bool;
}.

Definition initial : State :=
  {| projects := []; myIssues := []; isLoading := true |}.

Definition setProjects (v : list Project) : M State unit :=
  modify (fun s =>
    {| projects := v; myIssues := myIssues s; isLoading := isLoading s |}).

Definition setMyIssues (v : list Issue) : M State unit :=
  modify (fun s =>
    {| projects := projects s; myIssues := v; isLoading := isLoading s |}).

Definition setIsLoading (v : bool) : M State unit :=
  modify (fun s =>
    {| projects := projects s; myIssues := myIssues s; isLoading := v |}).

Definition loadData (settled_projects : Result (ApiResponse Project))
    (settled_issues : Result (ApiResponse Issue)) : M State unit :=
  finally
    (try_catch
       ('(projectsRes, issuesRes) ←
          Promise_all (projectService.getProjects settled_projects)
                      (issueService.getMyIssues settled_issues);
        setProjects (or_else (results projectsRes) []);;
        setMyIssues (or_else (results issuesRes) []))
       (fun error =>
          emit (console_error "Failed to load dashboard data:")))
    (setIsLoading false).

(** Each panel shows its empty state or the first five entries. *)
Inductive Panel (T : Type) :=
| panel_empty
| panel_rows (rows : list T).
Arguments panel_empty {T}.
Arguments panel_rows {T}.

Definition render_panel {T} (l : list T) : Panel T :=
  if (length l =? 0)%nat then panel_empty else panel_rows (take 5 l).

(** What the component returns: [Loading...] while [isLoading], otherwise
    the two counters and the two panels. *)
Inductive View :=
| loading_view
| dashboard_view (project_count issue_count : nat)
    (projects_panel : Panel Project) (issues_panel : Panel Issue).

Definition render (s : State) : View :=
  if isLoading s then loading_view
  else dashboard_view (length (projects s)) (length (myIssues s))
         (render_panel (projects s)) (render_panel (myIssues s)).

End Dashboard.

(** ** pages/IssueDetail

    [projectId] and [issueId] are [Number(projectId)] and [Number(issueId)]
    of the route parameters. *)

Module IssueDetail.

Record State := {
  issue : option Issue;
  comments : list Comment;
  newComment : string;
  isLoading : bool;
  isSubmitting : bool;
}.

Definition initial : State :=
  {| issue := None; comments := []; newComment := ""; isLoading := true;
     isSubmitting := false |}.

Definition setIssue (v : option Issue) : M State unit :=
  modify (fun s =>
    {| issue := v; comments := comments s; newComment := newComment s;
       isLoading := isLoading s; isSubmitting := isSubmitting s |}).

Definition setComments (v : list Comment) : M State unit :=
  modify (fun s =>
    {| issue := issue s; comments := v; newComment := newComment s;
       isLoading := isLoading s; isSubmitting := isSubmitting s |}).

Definition setNewComment (v : string) : M State unit :=
  modify (fun s =>
    {| issue := issue s; comments := comments s; newComment := v;
       isLoading := isLoading s; isSubmitting := isSubmitting s |}).

Definition setIsLoading (v : bool) : M State unit :=
  modify (fun s =>
    {| issue := issue s; comments := comments s; newComment := newComment s;
       isLoading := v; isSubmitting := isSubmitting s |}).

Definition setIsSubmitting (v : bool) : M State unit :=
  modify (fun s =>
    {| issue := issue s; comments := comments s; newComment := newComment s;
       isLoading := isLoading s; isSubmitting := v |}).

Definition loadData (projectId issueId : Z) (settled_issue : Result Issue)
    (settled_comments : Result (list Comment)) : M State unit :=
  finally
    (try_catch
       ('(issueData, commentsData) ←
          Promise_all
            (issueService.getIssue projectId issueId settled_issue)
            (commentService.getComments projectId issueId settled_comments);
        setIssue (Some issueData);;
        setComments commentsData)
       (fun error =>
          emit (console_error "Failed to load issue:");;
          emit (toast_error "Failed to load issue")))
    (setIsLoading false).

Definition handleSubmitComment (projectId issueId : Z)
    (settled : Result Comment) : M State unit :=
  s ← get;
  emit prevent_default;;
  if negb (truthy (trim (newComment s))) then mret tt
  else
    setIsSubmitting true;;
    finally
      (try_catch
         (_ ← commentService.createComment projectId issueId
                {| cc_content := newComment s |} settled;
          emit (toast_success "Comment added");;
          setNewComment "";;
          emit (start reload_issue_data))
         (fun error =>
            emit (console_error "Failed to add comment:");;
            emit (toast_error "Failed to add comment")))
      (setIsSubmitting false).

Definition handleStatusChange (projectId issueId : Z) (newStatus : string)
    (settled : Result Issue) : M State unit :=
  try_catch
    (_ ← issueService.updateIssue projectId issueId
           {| ui_title := None; ui_description := None; ui_priority := None;
              ui_status := Some newStatus; ui_assignee_id := None |} settled;
     emit (toast_success "Status updated");;
     emit (start reload_issue_data))
    (fun error =>
       emit (console_error "Failed to update status:");;
       emit (toast_error "Failed to update status")).

(** The [<select>] of the status: its selected value and the values of its
    [<option>] children.  Choosing an option calls
    [handleStatusChange(e.target.value)]. *)
Record Select := {
  selected : string;
  options : list string;
}.

Definition status_select (i : Issue) : Select :=
  {| selected := status_value (status i);
     options := ["open"; "in_progress"; "resolved"; "closed"] |}.

(** [disabled={isSubmitting || !newComment.trim()}] *)
Definition submit_disabled (s : State) : bool :=
  isSubmitting s || negb (truthy (trim (newComment s))).

End IssueDetail.

(** ** context/AuthContext *)

(** [JSON.stringify] on a user and [JSON.parse] on a stored text.
    [JSON_parse] is [None] when the text is not JSON (a SyntaxError is
    thrown), [Some None] when it parses to [null], [Some (Some u)] when it
    parses to the user [u]. *)
Class JSON := {
  JSON_stringify : User -> string;
  JSON_parse : string -> option (option User);
}.

Module AuthContext.

(** The provider's state and the browser's [localStorage]. *)
Record World := {
  user : option User;
  token : option string;
  isLoading : bool;
  localStorage : gmap string string;
}.

(** The provider as it mounts on a page load: the [useState] initial values
    over the storage the browser kept. *)
Definition mounted (storage : gmap string string) : World :=
  {| user := None; token := None; isLoading := true;
     localStorage := storage |}.

Definition setUser (v : option User) : M World unit :=
  modify (fun w =>
    {| user := v; token := token w; isLoading := isLoading w;
       localStorage := localStorage w |}).

Definition setToken (v : option string) : M World unit :=
  modify (fun w =>
    {| user := user w; token := v; isLoading := isLoading w;
       localStorage := localStorage w |}).

Definition setIsLoading (v : bool) : M World unit :=
  modify (fun w =>
    {| user := user w; token := token w; isLoading := v;
       localStorage := localStorage w |}).

Definition getItem (key : string) (w : World) : option string :=
  localStorage w !! key.

Definition setItem (key value : string) : M World unit :=
  modify (fun w =>
    {| user := user w; token := token w; isLoading := isLoading w;
       localStorage := <[key := value]> (localStorage w) |}).

Definition removeItem (key : string) : M World unit :=
  modify (fun w =>
    {| user := user w; token := token w; isLoading := isLoading w;
       localStorage := delete key (localStorage w) |}).

Definition syntax_error : JsError :=
  {| response_message := None; response_details := None |}.

Section provider.
Context `{JSON}.

(** The mount effect. *)
Definition init : M World unit :=
  w ← get;
  let storedToken := getItem "access_token" w in
  let storedUser := getItem "user" w in
  match storedToken, storedUser with
  | Some t, Some u =>
      if truthy t && truthy u then
        setToken (Some t);;
        parsed ← match JSON_parse u with
                 | Some v => mret v
                 | None => throw syntax_error
                 end;
        setUser parsed
      else mret tt
  | _, _ => mret tt
  end;;
  setIsLoading false.

Definition login (credentials : LoginCredentials)
    (settled : Result AuthResponse) : M World unit :=
  try_catch
    (response ← authService.login credentials settled;
     setUser (Some (auth_user response));;
     setToken (Some (access (tokens response)));;
     setItem "access_token" (access (tokens response));;
     setItem "user" (JSON_stringify (auth_user response));;
     emit (toast_success "Login successful!"))
    (fun error =>
       let message := or_else (response_message error) "Login failed" in
       emit (toast_error message);;
       throw error).

(** [Object.values(details).forEach(msgs => msgs.forEach(toast.error))] *)
Definition toast_details (details : list (string * list string))
  : M World unit :=
  fun w => (Fulfilled tt, w, toast_error <$> concat (snd <$> details)).

Definition register (d : RegisterData) (settled : Result AuthResponse)
  : M World unit :=
  try_catch
    (response ← authService.register d settled;
     setUser (Some (auth_user response));;
     setToken (Some (access (tokens response)));;
     setItem "access_token" (access (tokens response));;
     setItem "user" (JSON_stringify (auth_user response));;
     emit (toast_success "Registration successful!"))
    (fun error =>
       let message :=
         or_else (response_message error) "Registration failed" in
       match response_details error with
       | Some details => toast_details details
       | None => emit (toast_error message)
       end;;
       throw error).

(** [authService.logout().catch(() => {})] is not awaited: the request goes
    out and its rejection is dropped. *)
Definition logout (settled : Result unit) : M World unit :=
  try_catch (authService.logout settled) (fun _ => mret tt);;
  setUser None;;
  setToken None;;
  removeItem "access_token";;
  removeItem "user";;
  emit (toast_success "Logged out successfully").

(** [isAuthenticated: !!token] *)
Definition isAuthenticated (w : World) : bool := truthy (token w).

(** What can happen to the provider: the page is (re)loaded, or one of the
    context's operations runs with the settlement of its request. *)
Inductive Event :=
| page_load
| do_login (credentials : LoginCredentials) (settled : Result AuthResponse)
| do_register (d : RegisterData) (settled : Result AuthResponse)
| do_logout (settled : Result unit).

Definition handle (e : Event) (w : World)
  : Result unit * World * list Effect :=
  match e with
  | page_load => init (mounted (localStorage w))
  | do_login c settled => login c settled w
  | do_register d settled => register d settled w
  | do_logout settled => logout settled w
  end.

Definition step (e : Event) (w : World) : World := state_of (handle e w).

(** A browser that has never run the application: nothing stored. *)
Definition first_visit : World := state_of (init (mounted ∅)).

Definition run (events : list Event) : World :=
  foldl (flip step) first_visit events.

(** The worlds the context's operations lead to: those in which the mount
    effect of the page load has run.  The render that precedes it is in
    [rendered] below. *)
Inductive reachable : World -> Prop :=
| reach_first : reachable first_visit
| reach_step e w : reachable w -> reachable (step e w).

(** What the operations maintain: token and user are [null] together, and
    the text stored under [user] is a stringified user. *)
Definition session_ok (w : World) : Prop :=
  (token w = None <-> user w = None)
  /\ (forall x, localStorage w !! "user" = Some x ->
        exists u, x = JSON_stringify u).

(** The worlds the provider renders in: on every page load the provider
    first renders on its [useState] initial values, before the mount effect
    has run; after that it renders in the worlds of [reachable]. *)
Inductive rendered : World -> Prop :=
| rendered_first_mount : rendered (mounted ∅)
| rendered_mount w : reachable w -> rendered (mounted (localStorage w))
| rendered_settled w : reachable w -> rendered w.

End provider.

(** The same settlement with the refresh token blanked. *)
Definition without_refresh (r : AuthResponse) : AuthResponse :=
  {| auth_user := auth_user r;
     tokens := {| access := access (tokens r); refresh := "" |};
     auth_message := auth_message r |}.

Definition settled_without_refresh (x : Result AuthResponse)
  : Result AuthResponse :=
  match x with
  | Fulfilled r => Fulfilled (without_refresh r)
  | Rejected e => Rejected e
  end.

Definition forget_refresh (e : Event) : Event :=
  match e with
  | page_load => page_load
  | do_login c x => do_login c (settled_without_refresh x)
  | do_register d x => do_register d (settled_without_refresh x)
  | do_logout x => do_logout x
  end.

End AuthContext.

(** ** The router, the protected route and the sign-in pages *)

(** The history of react-router: the current location first.  [navigate(to)]
    pushes an entry. *)
Module Router.

Definition t := list string.

Definition navigate (to_ : string) : M t unit :=
  modify (fun h => to_ :: h).

End Router.

(** What a page that uses the context and the router runs in. *)
Record Env := {
  router : Router.t;
  auth : AuthContext.World;
}.

(** Run a computation on one component of the state. *)
Definition on_page {P X} (m : M P X) : M (P * Env) X :=
  fun '(p, env) => let '(r, p', l) := m p in (r, (p', env), l).

Definition on_auth {P X} (m : M AuthContext.World X) : M (P * Env) X :=
  fun '(p, env) =>
    let '(r, w, l) := m (auth env) in
    (r, (p, {| router := router env; auth := w |}), l).

Definition on_router {P X} (m : M Router.t X) : M (P * Env) X :=
  fun '(p, env) =>
    let '(r, h, l) := m (router env) in
    (r, (p, {| router := h; auth := auth env |}), l).

Module ProtectedRoute.

Inductive Rendered :=
| loading
| redirect (to_ : string)
| children.

Definition render (w : AuthContext.World) : Rendered :=
  if AuthContext.isLoading w then loading
  else if negb (AuthContext.isAuthenticated w) then redirect "/login"
  else children.

End ProtectedRoute.

Module Login.

Record State := {
  username : string;
  password : string;
  isLoading : bool;
}.

Definition initial : State :=
  {| username := ""; password := ""; isLoading := false |}.

Definition setIsLoading (v : bool) : M State unit :=
  modify (fun s =>
    {| username := username s; password := password s; isLoading := v |}).

Section page.
Context `{JSON}.

Definition handleSubmit (settled : Result AuthResponse)
  : M (State * Env) unit :=
  x ← get;
  emit prevent_default;;
  on_page (setIsLoading true);;
  finally
    (try_catch
       (on_auth
          (AuthContext.login
             {| login_username := username x.1;
                login_password := password x.1 |} settled);;
        on_router (Router.navigate "/dashboard"))
       (fun error => emit (console_error "Login error:")))
    (on_page (setIsLoading false)).

End page.

End Login.

Module Register.

Record State := {
  formData : RegisterData;
  isLoading : bool;
}.

Definition initial : State :=
  {| formData := {| reg_username := ""; reg_email := "";
                    reg_password := ""; reg_password_confirm := "" |};
     isLoading := false |}.

Definition setIsLoading (v : bool) : M State unit :=
  modify (fun s => {| formData := formData s; isLoading := v |}).

Section page.
Context `{JSON}.

Definition handleSubmit (settled : Result AuthResponse)
  : M (State * Env) unit :=
  x ← get;
  emit prevent_default;;
  on_page (setIsLoading true);;
  finally
    (try_catch
       (on_auth (AuthContext.register (formData x.1) settled);;
        on_router (Router.navigate "/dashboard"))
       (fun error => emit (console_error "Registration error:")))
    (on_page (setIsLoading false)).

End page.

End Register.

(** A codec on which the model runs: a user is written as an opening brace
    followed by the binary digits of its code, and [null] as itself. *)
Module SampleCodec.

Definition tuple_of (u : User) : Z * bool * list string :=
  (user_id u, is_active u,
   [username u; email u; first_name u; last_name u; full_name u;
    date_joined u; user_created_at u; user_updated_at u]).

Definition of_tuple (x : Z * bool * list string) : User :=
  let '(i, a, l) := x in
  let at_ n := nth n l "" in
  {| user_id := i; username := at_ 0%nat; email := at_ 1%nat;
     first_name := at_ 2%nat; last_name := at_ 3%nat;
     full_name := at_ 4%nat; is_active := a; date_joined := at_ 5%nat;
     user_created_at := at_ 6%nat; user_updated_at := at_ 7%nat |}.

#[export] Instance User_eq_dec : EqDecision User.
Proof. solve_decision. Defined.

#[export] Instance User_countable : Countable User :=
  inj_countable' tuple_of of_tuple
    (fun u => match u with Build_User _ _ _ _ _ _ _ _ _ _ => eq_refl end).

Fixpoint digits (p : positive) : string :=
  match p with
  | xH => ""
  | xO q => String "0" (digits q)
  | xI q => String "1" (digits q)
  end.

Fixpoint undigits (s : string) : option positive :=
  match s with
  | "" => Some xH
  | String c r =>
      if Ascii.eqb c "0" then xO <$> undigits r
      else if Ascii.eqb c "1" then xI <$> undigits r
      else None
  end.

#[export] Instance codec : JSON := {|
  JSON_stringify u := String "{" (digits (encode u));
  JSON_parse s :=
    match s with
    | String "{" r =>
        match undigits r ≫= decode with
        | Some u => Some (Some u)
        | None => None
        end
    | _ => if String.eqb s "null" then Some None else None
    end;
|}.

Definition alice : User :=
  {| user_id := 1; username := "alice"; email := "alice@example.org";
     first_name := "Alice"; last_name := "A"; full_name := "Alice A";
     is_active := true; date_joined := "2024-01-01";
     user_created_at := "2024-01-01"; user_updated_at := "2024-01-02" |}.

End SampleCodec.

(** ** Sample data *)

Module Samples.

(** A first page of 41 issues. *)
Definition page_of_41 : ApiResponse Issue :=
  {| success := true;
     pagination := Some {| count := 41; next := None; previous := None;
                           page_size := 20; total_pages := 3;
                           current_page := 1 |};
     results := Some []; data := None |}.

(** An envelope with none of its optional fields. *)
Definition bare_envelope {T} : ApiResponse T :=
  {| success := true; pagination := None; results := None; data := None |}.

Definition sample_comment : Comment :=
  {| comment_id := 1; content := "Reproduced on main";
     author := inl "alice"; comment_created_at := "2024-01-01";
     comment_updated_at := "2024-01-01" |}.

(** The issue page with a draft comment of two spaces and a tab. *)
Definition blank_draft : IssueDetail.State :=
  {| IssueDetail.issue := None; IssueDetail.comments := [];
     IssueDetail.newComment := utf8 [32; 32; 9]%nat;
     IssueDetail.isLoading := false; IssueDetail.isSubmitting := false |}.

Definition credentials : LoginCredentials :=
  {| login_username := "alice"; login_password := "correct horse" |}.

Definition signed_in : AuthResponse :=
  {| auth_user := SampleCodec.alice;
     tokens := {| access := "header.payload.signature";
                  refresh := "refresh.payload.signature" |};
     auth_message := "Login successful" |}.

(** A response whose access token is the empty string. *)
Definition signed_in_empty_access : AuthResponse :=
  {| auth_user := SampleCodec.alice;
     tokens := {| access := ""; refresh := "refresh.payload.signature" |};
     auth_message := "Login successful" |}.

Definition network_error : JsError :=
  {| response_message := None; response_details := None |}.

End Samples.
Import Samples.

(** Further sample data. *)
Module MoreSamples.

Definition sample_issue : Issue :=
  {| issue_id := 3; title := "Crash on save"; description := "Steps";
     status := open; priority := high; issue_project := None;
     issue_project_name := None; reporter := inl "alice";
     assignee := None; comment_count := 0;
     issue_created_at := "2024-01-01"; issue_updated_at := "2024-01-01" |}.

(** The project page on the last of three pages. *)
Definition last_page_of_three : ProjectDetail.State :=
  {| ProjectDetail.project := None;
     ProjectDetail.issues := [sample_issue];
     ProjectDetail.isLoading := false; ProjectDetail.showModal := false;
     ProjectDetail.formData := ProjectDetail.empty_form;
     ProjectDetail.isSubmitting := false; ProjectDetail.currentPage := 3;
     ProjectDetail.totalPages := 3; ProjectDetail.searchQuery := "";
     ProjectDetail.searchInput := "" |}.

(** The issue page with a draft comment, while a submit is in flight. *)
Definition draft_in_flight : IssueDetail.State :=
  {| IssueDetail.issue := Some sample_issue; IssueDetail.comments := [];
     IssueDetail.newComment := " Looks good ";
     IssueDetail.isLoading := false; IssueDetail.isSubmitting := true |}.

Definition draft_ready : IssueDetail.State :=
  {| IssueDetail.issue := Some sample_issue; IssueDetail.comments := [];
     IssueDetail.newComment := " Looks good ";
     IssueDetail.isLoading := false; IssueDetail.isSubmitting := false |}.

Definition sample_project : Project :=
  {| project_id := 7; project_name := "Alpha"; project_description := "";
     owner := inl "alice"; member_count := 1; issue_count := 41;
     project_created_at := "2024-01-01";
     project_updated_at := "2024-01-01"; members := None |}.

(** The project page once [loadProject] has delivered the project. *)
Definition project_loaded : ProjectDetail.State :=
  {| ProjectDetail.project := Some sample_project;
     ProjectDetail.issues := [];
     ProjectDetail.isLoading := false; ProjectDetail.showModal := false;
     ProjectDetail.formData := ProjectDetail.empty_form;
     ProjectDetail.isSubmitting := false; ProjectDetail.currentPage := 1;
     ProjectDetail.totalPages := 1; ProjectDetail.searchQuery := "";
     ProjectDetail.searchInput := "" |}.

(** A first page of 41 issues, with a row in it. *)
Definition first_page_of_41 : ApiResponse Issue :=
  {| success := true;
     pagination := Some {| count := 41; next := None; previous := None;
                           page_size := 20; total_pages := 3;
                           current_page := 1 |};
     results := Some [sample_issue]; data := None |}.

Definition invalid_credentials : JsError :=
  {| response_message := Some "Invalid credentials";
     response_details := None |}.

Definition validation_failed : JsError :=
  {| response_message := Some "Validation failed";
     response_details :=
       Some [("username", ["A user with that username already exists."]);
             ("password", ["This password is too short.";
                           "This password is too common."])] |}.

Definition sign_up : RegisterData :=
  {| reg_username := "alice"; reg_email := "alice@example.org";
     reg_password := "12345"; reg_password_confirm := "12345" |}.

End MoreSamples.
Import MoreSamples.

(** * Properties *)

(** Run a handler: unfold the monad and compute, keeping [trim] folded. *)
Ltac exec :=
  unfold mbind, M_bind, mret, M_ret, get, emit, modify, throw, try_catch,
    finally; cbn -[trim].

(** ** JavaScript primitives *)

Section js_facts.

Lemma or_else_number_zero (x : option Z) : or_else x 0 = default 0 x.
Proof.
  destruct x as [n|]; [|done]. unfold or_else, truthy, truthy_number.
  destruct (Z.eqb_spec n 0); simpl; congruence.
Qed.

(** [Math.ceil(a / b)] is the least integer [k] with [a <= b * k]. *)
Lemma Math_ceil_div_spec a b :
  0 < b -> b * (Math_ceil_div a b - 1) < a <= b * Math_ceil_div a b.
Proof.
  intros Hb. unfold Math_ceil_div.
  set (q := (inject_Z a / inject_Z b)%Q).
  assert (Hq : (q * inject_Z b == inject_Z a)%Q).
  { unfold q. field. intros E. unfold Qeq in E; simpl in E. lia. }
  assert (Hbq : (0 < inject_Z b)%Q) by (unfold Qlt; simpl; lia).
  pose proof (Qle_ceiling q) as Hle.
  pose proof (Qceiling_lt q) as Hlt.
  split.
  - apply (Qmult_lt_r _ _ _ Hbq) in Hlt.
    rewrite Hq, <- inject_Z_mult, <- Zlt_Qlt in Hlt. lia.
  - apply (Qmult_le_r _ _ _ Hbq) in Hle.
    rewrite Hq, <- inject_Z_mult, <- Zle_Qle in Hle. lia.
Qed.

Lemma Math_ceil_div_unique a b k :
  0 < b -> b * (k - 1) < a <= b * k -> Math_ceil_div a b = k.
Proof.
  intros Hb Hk. pose proof (Math_ceil_div_spec a b Hb). nia.
Qed.

Lemma Math_ceil_div_20 n : Math_ceil_div n 20 = (n + 19) / 20.
Proof.
  apply Math_ceil_div_unique; [lia|].
  pose proof (Z.div_mod (n + 19) 20 ltac:(lia)).
  pose proof (Z.mod_pos_bound (n + 19) 20 ltac:(lia)). lia.
Qed.

End js_facts.

(** ** Pagination and absent envelope fields *)

Section lists.

Import ProjectDetail.

Lemma loadIssues_totalPages (id : Z) (r : ApiResponse Issue) (s : State) :
  totalPages (state_of (loadIssues id (Fulfilled r) s))
  = Math_ceil_div (default 0 (count <$> pagination r)) 20.
Proof. rewrite <- or_else_number_zero. reflexivity. Qed.

Lemma pagination_bar_numbers (s : State) (bar : PaginationBar) :
  pagination_bar s = Some bar ->
  length (numbers bar) = Z.to_nat (totalPages s)
  /\ forall q, In q (numbers bar) <-> 1 <= q <= totalPages s.
Proof.
  unfold pagination_bar.
  destruct (length (issues s) =? 0)%nat; [done|].
  destruct (1 <? totalPages s); [|done].
  intros [= <-]. cbn [numbers]. split.
  - by rewrite length_map, length_seq.
  - intros q. rewrite in_map_iff. split.
    + intros (i & <- & Hi%in_seq). lia.
    + intros Hq. exists (Z.to_nat (q - 1)). split; [lia|].
      apply in_seq. lia.
Qed.

(** C1.  After [loadIssues] receives a list response whose pagination block
    reports [N] issues, [totalPages] is [ceil(N / 20)]: the one integer [k]
    with [20 * (k - 1) < N <= 20 * k], which is [(N + 19) / 20]; without a
    pagination block the count is taken as 0 and [totalPages] is 0.
    Whenever the page then draws its pagination bar (the project is loaded,
    the list is not empty and there is more than one page), the bar has one
    numbered button for each of the pages 1 to [totalPages]. *)
Theorem loadIssues_totalPages_ceil (id : Z) (r : ApiResponse Issue)
    (s : State) :
  let s' := state_of (loadIssues id (Fulfilled r) s) in
  (forall p, pagination r = Some p ->
     20 * (totalPages s' - 1) < count p <= 20 * totalPages s'
     /\ totalPages s' = (count p + 19) / 20)
  /\ (pagination r = None -> totalPages s' = 0)
  /\ (forall p l bar m,
        render s' = project_view p l (Some bar) m ->
        length (numbers bar) = Z.to_nat (totalPages s')
        /\ forall q, In q (numbers bar) <-> 1 <= q <= totalPages s').
Proof.
  cbv zeta. split; [|split].
  - rewrite loadIssues_totalPages. intros p ->. simpl. split.
    + apply Math_ceil_div_spec. lia.
    + apply Math_ceil_div_20.
  - rewrite loadIssues_totalPages. intros ->. reflexivity.
  - intros p l bar m. unfold render.
    destruct (isLoading _); [done|]. destruct (project _); [|done].
    intros [= _ _ Hbar _]. by apply pagination_bar_numbers.
Qed.

Lemma loadIssues_totalPages_ceil_witness :
  totalPages (state_of (loadIssues 7 (Fulfilled page_of_41) initial)) = 3
  /\ exists bar,
       pagination_bar
         (state_of (loadIssues 7 (Fulfilled first_page_of_41) project_loaded))
       = Some bar
       /\ length (numbers bar) = 3%nat.
Proof.
  split.
  - destruct (loadIssues_totalPages_ceil 7 page_of_41 initial) as [H _].
    destruct (H _ eq_refl) as [_ ->]. reflexivity.
  - destruct (loadIssues_totalPages_ceil 7 first_page_of_41 project_loaded)
      as (_ & _ & H).
    eexists. split; [reflexivity|].
    exact (proj1 (H _ _ _ _ eq_refl)).
Defined.

(** C10.  The loaders of the list pages accept every response: they settle
    without throwing, and a response without [results] leaves the empty
    list in the state.  [Projects] and [Dashboard] then render their empty
    state; [ProjectDetail] renders the empty state of its list, with no
    pagination bar, once it is past its early returns ([Loading...] while
    the project is loading, [Project not found] without one).  A response
    without [pagination] gives [ProjectDetail] zero pages. *)
Theorem loaders_total_on_absent_fields :
  (forall (r : ApiResponse Project) (s : Projects.State),
     let x := Projects.loadProjects (Fulfilled r) s in
     outcome_of x = Fulfilled tt
     /\ (results r = None ->
         Projects.projects (state_of x) = []
         /\ Projects.render (state_of x)
            = Projects.projects_view Projects.no_projects_yet
                (if Projects.showModal s then Some (Projects.formData s)
                 else None)))
  /\ (forall (rp : ApiResponse Project) (ri : ApiResponse Issue)
        (s : Dashboard.State),
        let x := Dashboard.loadData (Fulfilled rp) (Fulfilled ri) s in
        outcome_of x = Fulfilled tt
        /\ (results rp = None ->
            Dashboard.projects (state_of x) = []
            /\ exists n q,
                 Dashboard.render (state_of x)
                 = Dashboard.dashboard_view 0 n Dashboard.panel_empty q)
        /\ (results ri = None ->
            Dashboard.myIssues (state_of x) = []
            /\ exists n q,
                 Dashboard.render (state_of x)
                 = Dashboard.dashboard_view n 0 q Dashboard.panel_empty))
  /\ (forall (id : Z) (r : ApiResponse Issue) (s : State),
        let x := loadIssues id (Fulfilled r) s in
        outcome_of x = Fulfilled tt
        /\ (results r = None ->
            issues (state_of x) = []
            /\ render (state_of x)
               = if isLoading s then loading_view
                 else match project s with
                      | None => project_not_found
                      | Some p =>
                          project_view p (no_issues (truthy (searchQuery s)))
                            None
                            (if showModal s then Some (formData s) else None)
                      end)
        /\ (pagination r = None -> totalPages (state_of x) = 0)).
Proof.
  split; [|split].
  - intros r s x. split; [reflexivity|].
    intros Hr. subst x. unfold Projects.render, Projects.list_area.
    change (Projects.projects _) with (or_else (results r) []).
    rewrite Hr. done.
  - intros rp ri s x. split; [reflexivity|]. subst x.
    unfold Dashboard.render.
    change (Dashboard.projects _) with (or_else (results rp) []).
    change (Dashboard.myIssues _) with (or_else (results ri) []).
    split; intros ->; (split; [done|]); by eexists _, _.
  - intros id r s x. split; [reflexivity|]. subst x. split.
    + intros Hr. unfold render, list_area, pagination_bar.
      change (issues _) with (or_else (results r) []).
      rewrite Hr. done.
    + intros Hp. rewrite loadIssues_totalPages, Hp. reflexivity.
Qed.

Lemma loaders_total_on_absent_fields_witness :
  Projects.render
    (state_of (Projects.loadProjects (Fulfilled bare_envelope)
                 Projects.initial))
  = Projects.projects_view Projects.no_projects_yet None
  /\ Dashboard.myIssues
       (state_of (Dashboard.loadData (Fulfilled bare_envelope)
                    (Fulfilled bare_envelope) Dashboard.initial)) = []
  /\ render (state_of (loadIssues 7 (Fulfilled bare_envelope) project_loaded))
     = project_view sample_project (no_issues false) None None
  /\ totalPages
       (state_of (loadIssues 7 (Fulfilled bare_envelope) project_loaded)) = 0.
Proof.
  destruct loaders_total_on_absent_fields as (HP & HD & HI).
  split; [|split; [|split]].
  - exact (proj2 (proj2 (HP bare_envelope Projects.initial) eq_refl)).
  - exact (proj1 (proj2 (proj2 (HD bare_envelope bare_envelope
                                   Dashboard.initial)) eq_refl)).
  - exact (proj2 (proj1 (proj2 (HI 7 bare_envelope project_loaded))
                    eq_refl)).
  - exact (proj2 (proj2 (HI 7 bare_envelope project_loaded)) eq_refl).
Defined.

End lists.

(** ** The query of the issues request *)

Section url.

Import URLSearchParams.

(** The parser undoes the serializer on every byte: *)
Lemma decode_serialize_byte c t :
  decode_string (serialize_byte c +:+ t) = String c (decode_string t).
Proof. destruct c as [[] [] [] [] [] [] [] []]; reflexivity. Qed.

Lemma decode_serialize_string s : decode_string (serialize_string s) = s.
Proof.
  induction s as [|c r IH]; [done|]. simpl.
  rewrite decode_serialize_byte. by rewrite IH.
Qed.

Lemma append_assoc (a b c : string) : (a +:+ b) +:+ c = a +:+ b +:+ c.
Proof.
  induction a as [|x a IH]; [done|].
  change (String x ((a +:+ b) +:+ c) = String x (a +:+ b +:+ c)).
  by rewrite IH.
Qed.

Lemma occurs_app d a b : occurs d (a +:+ b) = occurs d a || occurs d b.
Proof. induction a as [|c a IH]; simpl; [done|]. by rewrite IH, orb_assoc. Qed.

Lemma serialize_byte_delimiters c :
  occurs "&" (serialize_byte c) = false
  /\ occurs "=" (serialize_byte c) = false.
Proof. destruct c as [[] [] [] [] [] [] [] []]; split; reflexivity. Qed.

Lemma serialize_string_delimiters s :
  occurs "&" (serialize_string s) = false
  /\ occurs "=" (serialize_string s) = false.
Proof.
  induction s as [|c r [IH1 IH2]]; [done|]. simpl.
  rewrite !occurs_app, IH1, IH2.
  destruct (serialize_byte_delimiters c) as [-> ->]. done.
Qed.

Lemma split_on_absent d a : occurs d a = false -> split_on d a = [a].
Proof.
  induction a as [|c a IH]; simpl; [done|].
  intros [Hc Ha]%orb_false_elim. rewrite Hc, (IH Ha). done.
Qed.

Lemma split_on_first d a b :
  occurs d a = false -> split_on d (a +:+ String d b) = a :: split_on d b.
Proof.
  induction a as [|c a IH]; simpl.
  - intros _. by rewrite Ascii.eqb_refl.
  - intros [Hc Ha]%orb_false_elim. rewrite Hc, (IH Ha). done.
Qed.

Lemma break_on_first d a b :
  occurs d a = false -> break_on d (a +:+ String d b) = (a, Some b).
Proof.
  induction a as [|c a IH]; simpl.
  - intros _. by rewrite Ascii.eqb_refl.
  - intros [Hc Ha]%orb_false_elim. rewrite Hc, (IH Ha). done.
Qed.

Lemma parse_serialize_pair p : parse_pair (serialize_pair p) = p.
Proof.
  destruct p as [n v]. unfold parse_pair, serialize_pair.
  cbn [fst snd].
  change ("=" +:+ serialize_string v) with (String "=" (serialize_string v)).
  rewrite break_on_first by apply serialize_string_delimiters.
  simpl. by rewrite !decode_serialize_string.
Qed.

Lemma serialize_pair_nonempty p : serialize_pair p <> "".
Proof.
  destruct p as [n v]. unfold serialize_pair. simpl.
  destruct (serialize_string n); discriminate.
Qed.

Lemma serialize_pair_no_amp p : occurs "&" (serialize_pair p) = false.
Proof.
  destruct p as [n v]. unfold serialize_pair. cbn [fst snd].
  rewrite !occurs_app. cbn [occurs].
  destruct (serialize_string_delimiters n) as [-> _].
  destruct (serialize_string_delimiters v) as [-> _]. done.
Qed.

Lemma parse_toString params : parse (toString params) = params.
Proof.
  induction params as [|p ps IH]; [done|].
  destruct ps as [|p' ps].
  - simpl. unfold parse.
    rewrite split_on_absent by apply serialize_pair_no_amp.
    rewrite filter_cons_True by apply serialize_pair_nonempty.
    rewrite filter_nil. simpl. by rewrite parse_serialize_pair.
  - change (toString (p :: p' :: ps))
      with (serialize_pair p +:+ String "&" (toString (p' :: ps))).
    unfold parse.
    rewrite split_on_first by apply serialize_pair_no_amp.
    rewrite filter_cons_True by apply serialize_pair_nonempty.
    cbn [map]. f_equal; [apply parse_serialize_pair | exact IH].
Qed.

Lemma toString_digits n : occurs "?" (Js.toString n) = false.
Proof.
  assert (Hu : forall d, occurs "?" (NilEmpty.string_of_uint d) = false).
  { induction d; simpl; done. }
  assert (Hz : forall d, occurs "?" (NilZero.string_of_uint d) = false).
  { intros []; try apply Hu. done. }
  unfold Js.toString. destruct (Z.to_int n); simpl; apply Hz.
Qed.

Lemma query_of_issues_url (projectId : Z) (q : string) :
  query_of ("/projects/" +:+ Js.toString projectId +:+ "/issues/?" +:+ q) = q.
Proof.
  unfold query_of.
  change ("/projects/" +:+ Js.toString projectId +:+ "/issues/?" +:+ q)
    with ("/projects/" +:+ Js.toString projectId +:+ "/issues/"
            +:+ String "?" q).
  rewrite <- (append_assoc (Js.toString projectId) "/issues/").
  rewrite <- (append_assoc "/projects/").
  rewrite break_on_first; [done|].
  rewrite !occurs_app, toString_digits. done.
Qed.

(** C2.  [getProjectIssues] sends one GET request.  Read back with the
    form-urlencoded parser, the query of its URL is the page parameter
    alone when [search] is the empty string (or left out), and the page
    parameter followed by a [search] parameter whose value is the search
    string itself, byte for byte, when it is not empty. *)
Theorem getProjectIssues_query {S : Type} (projectId : Z) (page : option Z)
    (search : option string) (settled : Result (ApiResponse Issue))
    (s : S) :
  exists u,
    requests
      (effects_of
         (issueService.getProjectIssues projectId page search settled s))
    = [ {| method := GET; url := u; body := None |} ]
    /\ (default "" search = "" ->
        parse (query_of u) = [("page", Js.toString (default 1 page))])
    /\ (default "" search <> "" ->
        parse (query_of u)
        = [("page", Js.toString (default 1 page));
           ("search", default "" search)]).
Proof.
  eexists. split; [reflexivity|].
  rewrite query_of_issues_url, parse_toString.
  split.
  - intros ->. reflexivity.
  - intros Hs. destruct (default "" search); [done|reflexivity].
Qed.

Lemma getProjectIssues_query_witness :
  exists u,
    requests
      (effects_of
         (issueService.getProjectIssues 7 (Some 2) (Some "save & quit")
            (Fulfilled page_of_41) tt))
    = [ {| method := GET; url := u; body := None |} ]
    /\ parse (query_of u) = [("page", "2"); ("search", "save & quit")].
Proof.
  destruct (getProjectIssues_query 7 (Some 2) (Some "save & quit")
              (Fulfilled page_of_41) tt) as (u & Hu & _ & Hq).
  exists u. split; [exact Hu | apply Hq; discriminate].
Defined.

End url.

(** ** trim *)

Section trim_facts.

Lemma length_append (a b : string) :
  String.length (a +:+ b) = (String.length a + String.length b)%nat.
Proof.
  induction a as [|x a IH]; [done|].
  change (S (String.length (a +:+ b))
          = S (String.length a + String.length b)). by rewrite IH.
Qed.

Lemma strip_one_white_space w s :
  In w white_space -> strip_one white_space (w +:+ s) = Some s.
Proof.
  intros Hw. repeat (destruct Hw as [<-|Hw]; [reflexivity|]). destruct Hw.
Qed.

Lemma white_space_nonempty w : In w white_space -> (1 <= String.length w)%nat.
Proof.
  intros Hw. repeat (destruct Hw as [<-|Hw]; [cbn; lia|]). destruct Hw.
Qed.

Lemma drop_leading_white_space s :
  white_space_only s ->
  forall n, (String.length s <= n)%nat -> drop_leading white_space n s = "".
Proof.
  induction 1 as [|w s Hw Hs IH]; intros n Hn.
  - by destruct n.
  - rewrite length_append in Hn.
    pose proof (white_space_nonempty w Hw).
    destruct n as [|n]; [lia|]. cbn [drop_leading].
    rewrite strip_one_white_space by done. apply IH. lia.
Qed.

Lemma trim_white_space_only s : white_space_only s -> trim s = "".
Proof.
  intros Hs. unfold trim, trimStart.
  by rewrite (drop_leading_white_space s Hs).
Qed.

Lemma truthy_string_nonempty (s : string) : truthy s = true <-> s <> "".
Proof. by destruct s. Qed.

End trim_facts.

(** ** Mutations *)

Section mutations.

Import IssueDetail.

Lemma handleSubmitComment_blank projectId issueId settled s :
  truthy (trim (newComment s)) = false ->
  handleSubmitComment projectId issueId settled s
  = (Fulfilled tt, s, [prevent_default]).
Proof. intros H. unfold handleSubmitComment. exec. by rewrite H. Qed.

Lemma handleSubmitComment_requests projectId issueId settled s :
  truthy (trim (newComment s)) = true ->
  requests (effects_of (handleSubmitComment projectId issueId settled s))
  = [ {| method := POST;
         url := "/projects/" +:+ toString projectId +:+ "/issues/"
                  +:+ toString issueId +:+ "/add_comment/";
         body := Some (body_create_comment
                         {| cc_content := newComment s |}) |} ].
Proof.
  intros H. unfold handleSubmitComment. exec. rewrite H.
  by destruct settled.
Qed.

(** C6.  When the trimmed comment text is empty, [handleSubmitComment]
    returns at once: no request goes out, the state is untouched, and the
    submit button is disabled.  Every request it does send is the
    [createComment] request with the text as typed, whose trim is not empty
    and which therefore is not made of white space only. *)
Theorem handleSubmitComment_never_blank (projectId issueId : Z)
    (settled : Result Comment) (s : State) :
  let x := handleSubmitComment projectId issueId settled s in
  (trim (newComment s) = "" ->
     requests (effects_of x) = [] /\ state_of x = s
     /\ submit_disabled s = true)
  /\ (forall r, In r (requests (effects_of x)) ->
        body r = Some (body_create_comment {| cc_content := newComment s |})
        /\ trim (newComment s) <> ""
        /\ ~ white_space_only (newComment s)).
Proof.
  cbv zeta. destruct (truthy (trim (newComment s))) eqn:E.
  - split.
    + intros Ht. rewrite Ht in E. discriminate.
    + rewrite handleSubmitComment_requests by done.
      intros r [<-|[]]. split; [done|].
      apply truthy_string_nonempty in E. split; [done|].
      intros Hw. by apply E, trim_white_space_only.
  - rewrite handleSubmitComment_blank by done. split.
    + intros _. unfold submit_disabled. rewrite E.
      by rewrite orb_true_r.
    + intros r [].
Qed.

Lemma handleSubmitComment_never_blank_witness :
  requests
    (effects_of
       (handleSubmitComment 7 3 (Fulfilled sample_comment) blank_draft))
  = []
  /\ submit_disabled blank_draft = true.
Proof.
  destruct (handleSubmitComment_never_blank 7 3 (Fulfilled sample_comment)
              blank_draft) as [H _].
  destruct (H eq_refl) as (Hr & _ & Hd). exact (conj Hr Hd).
Defined.

(** C3.  A mutation whose request is rejected leaves the page as it was:
    creating an issue or a project fails with every field of the state
    unchanged but [isSubmitting], which is false again (lists, modal, form
    and page are those of before); a failed comment keeps the issue, the
    comments and the draft; a failed status change keeps the whole state.
    No loader is started when the request is rejected; the loaders are
    started when it is fulfilled. *)
Theorem failed_mutations_keep_state :
  (forall (id : Z) (e : JsError) (s : ProjectDetail.State),
     let x := ProjectDetail.handleSubmit id (Rejected e) s in
     state_of x = state_of (ProjectDetail.setIsSubmitting false s)
     /\ started (effects_of x) = [])
  /\ (forall (e : JsError) (s : Projects.State),
        let x := Projects.handleSubmit (Rejected e) s in
        state_of x = state_of (Projects.setIsSubmitting false s)
        /\ started (effects_of x) = [])
  /\ (forall (projectId issueId : Z) (e : JsError) (s : State),
        let x := handleSubmitComment projectId issueId (Rejected e) s in
        issue (state_of x) = issue s
        /\ comments (state_of x) = comments s
        /\ newComment (state_of x) = newComment s
        /\ isLoading (state_of x) = isLoading s
        /\ started (effects_of x) = [])
  /\ (forall (projectId issueId : Z) (newStatus : string) (e : JsError)
         (s : State),
        let x :=
          handleStatusChange projectId issueId newStatus (Rejected e) s in
        state_of x = s /\ started (effects_of x) = [])
  /\ (forall (id : Z) (v : Issue) (s : ProjectDetail.State),
        started (effects_of (ProjectDetail.handleSubmit id (Fulfilled v) s))
        = [reload_issues; reload_project])
  /\ (forall (v : Project) (s : Projects.State),
        started (effects_of (Projects.handleSubmit (Fulfilled v) s))
        = [reload_projects])
  /\ (forall (projectId issueId : Z) (v : Comment) (s : State),
        started
          (effects_of (handleSubmitComment projectId issueId (Fulfilled v) s))
        = if truthy (trim (newComment s)) then [reload_issue_data] else [])
  /\ (forall (projectId issueId : Z) (newStatus : string) (v : Issue)
         (s : State),
        started
          (effects_of
             (handleStatusChange projectId issueId newStatus (Fulfilled v) s))
        = [reload_issue_data]).
Proof.
  repeat match goal with |- _ /\ _ => split end;
    intros; repeat match goal with x := _ |- _ => subst x end;
    repeat split; try reflexivity;
    unfold handleSubmitComment; exec;
    destruct (truthy (trim (newComment s))); reflexivity.
Qed.

(** C4.  Whatever the status of the issue shown, the status selector
    offers each of the four statuses, and [handleStatusChange] sends the
    update for the value it is given, whatever that value is, without
    looking at the state: any status can follow any other. *)
Theorem status_change_unrestricted :
  (forall (i : Issue) (t : IssueStatus),
     In (status_value t) (options (status_select i)))
  /\ (forall (projectId issueId : Z) (newStatus : string)
         (settled : Result Issue) (s : State),
        requests
          (effects_of
             (handleStatusChange projectId issueId newStatus settled s))
        = [ {| method := PATCH;
               url := "/projects/" +:+ toString projectId +:+ "/issues/"
                        +:+ toString issueId +:+ "/";
               body :=
                 Some (body_update_issue
                         {| ui_title := None; ui_description := None;
                            ui_priority := None;
                            ui_status := Some newStatus;
                            ui_assignee_id := None |}) |} ]).
Proof.
  split.
  - intros i []; cbn; tauto.
  - intros projectId issueId newStatus [v|e] s; reflexivity.
Qed.

(** C5.  The request of a status change has one body, whose JSON object
    has the single member [status], holding the chosen value: [title],
    [description], [priority] and [assignee_id] are not sent.  An
    [UpdateIssueData] may leave out all five fields, sends no member outside
    those five, and with [assignee_id: null] sends an explicit [null]. *)
Theorem status_change_body :
  (forall (projectId issueId : Z) (newStatus : string)
      (settled : Result Issue) (s : State),
     body_json
       <$> omap body
             (requests
                (effects_of
                   (handleStatusChange projectId issueId newStatus settled
                      s)))
     = [ [("status", j_string newStatus)] ])
  /\ body_json
       (body_update_issue
          {| ui_title := None; ui_description := None; ui_priority := None;
             ui_status := None; ui_assignee_id := None |}) = []
  /\ (forall d : UpdateIssueData,
        body_keys (body_update_issue d)
        ⊆ ["title"; "description"; "priority"; "status"; "assignee_id"])
  /\ body_json
       (body_update_issue
          {| ui_title := None; ui_description := None; ui_priority := None;
             ui_status := None; ui_assignee_id := Some None |})
     = [("assignee_id", j_null)].
Proof.
  repeat match goal with |- _ /\ _ => split end; try reflexivity.
  - intros projectId issueId newStatus [v|e] s; reflexivity.
  - intros [[?|] [?|] [?|] [?|] [?|]] k Hk%list_elem_of_In;
      apply list_elem_of_In; cbn in *; tauto.
Qed.

End mutations.

(** ** The sample codec satisfies the contract of JSON *)

Section codec.

Import SampleCodec.

Lemma undigits_digits p : undigits (digits p) = Some p.
Proof. induction p as [p IH|p IH|]; cbn; [by rewrite IH..|done]. Qed.

Lemma sample_parse_stringify u :
  JSON_parse (JSON_stringify u) = Some (Some u).
Proof.
  cbn -[encode decode]. rewrite undigits_digits.
  cbn -[encode decode]. by rewrite decode_encode.
Qed.

End codec.

(** ** The session *)

Section session.

Import AuthContext.
Context `{JSON}.

(** What each operation computes. *)
Lemma init_mounted storage :
  init (mounted storage)
  = match storage !! "access_token", storage !! "user" with
    | Some t, Some u =>
        if truthy t && truthy u then
          match JSON_parse u with
          | Some v =>
              (Fulfilled tt,
               {| user := v; token := Some t; isLoading := false;
                  localStorage := storage |}, [])
          | None =>
              (Rejected syntax_error,
               {| user := None; token := Some t; isLoading := true;
                  localStorage := storage |}, [])
          end
        else (Fulfilled tt,
              {| user := None; token := None; isLoading := false;
                 localStorage := storage |}, [])
    | _, _ => (Fulfilled tt,
              {| user := None; token := None; isLoading := false;
                 localStorage := storage |}, [])
    end.
Proof.
  unfold init. exec. unfold getItem. cbn.
  destruct (storage !! "access_token") as [t|]; [|done].
  destruct (storage !! "user") as [u|]; [|done].
  destruct (truthy t && truthy u); [|done].
  cbn. destruct (JSON_parse u); done.
Qed.

Lemma login_fulfilled c r w :
  login c (Fulfilled r) w
  = (Fulfilled tt,
     {| user := Some (auth_user r); token := Some (access (tokens r));
        isLoading := isLoading w;
        localStorage :=
          <["user" := JSON_stringify (auth_user r)]>
            (<["access_token" := access (tokens r)]> (localStorage w)) |},
     [http {| method := POST; url := "/auth/login/";
              body := Some (body_login c) |};
      toast_success "Login successful!"]).
Proof. reflexivity. Qed.

Lemma login_rejected c e w :
  login c (Rejected e) w
  = (Rejected e, w,
     [http {| method := POST; url := "/auth/login/";
              body := Some (body_login c) |};
      toast_error (or_else (response_message e) "Login failed")]).
Proof. reflexivity. Qed.

Lemma register_fulfilled d r w :
  register d (Fulfilled r) w
  = (Fulfilled tt,
     {| user := Some (auth_user r); token := Some (access (tokens r));
        isLoading := isLoading w;
        localStorage :=
          <["user" := JSON_stringify (auth_user r)]>
            (<["access_token" := access (tokens r)]> (localStorage w)) |},
     [http {| method := POST; url := "/auth/register/";
              body := Some (body_register d) |};
      toast_success "Registration successful!"]).
Proof. reflexivity. Qed.

Lemma register_rejected_state d e w :
  state_of (register d (Rejected e) w) = w
  /\ outcome_of (register d (Rejected e) w) = Rejected e.
Proof. unfold register. exec. destruct (response_details e); done. Qed.

Lemma logout_any settled w :
  logout settled w
  = (Fulfilled tt,
     {| user := None; token := None; isLoading := isLoading w;
        localStorage := delete "user" (delete "access_token" (localStorage w)) |},
     [http {| method := POST; url := "/auth/logout/"; body := None |};
      toast_success "Logged out successfully"]).
Proof. destruct settled; reflexivity. Qed.

Lemma step_page_load_storage w :
  localStorage (step page_load w) = localStorage w.
Proof.
  unfold step, handle. rewrite init_mounted.
  repeat case_match; reflexivity.
Qed.

(** Keys other than the two of the session are never written. *)
Lemma step_other_keys e w k :
  k <> "access_token" -> k <> "user" ->
  localStorage (step e w) !! k = localStorage w !! k.
Proof.
  intros Ha Hu. destruct e as [|c [r|e]|d [r|e]|x].
  - by rewrite step_page_load_storage.
  - unfold step, handle. rewrite login_fulfilled. cbn.
    by rewrite !lookup_insert_ne.
  - reflexivity.
  - unfold step, handle. rewrite register_fulfilled. cbn.
    by rewrite !lookup_insert_ne.
  - unfold step, handle. by rewrite (proj1 (register_rejected_state d e w)).
  - unfold step, handle. rewrite logout_any. cbn.
    by rewrite !lookup_delete_ne.
Qed.

Lemma handle_forget_refresh e w : handle (forget_refresh e) w = handle e w.
Proof. destruct e as [|c [r|e]|d [r|e]|x]; reflexivity. Qed.

Lemma run_snoc events e : run (events ++ [e]) = step e (run events).
Proof. unfold run. by rewrite foldl_snoc. Qed.

Lemma run_forget_refresh events : run (forget_refresh <$> events) = run events.
Proof.
  induction events as [|e events IH] using rev_ind; [done|].
  rewrite fmap_app. cbn [fmap list_fmap]. rewrite !run_snoc, IH.
  unfold step. by rewrite handle_forget_refresh.
Qed.

Lemma reachable_run events : reachable (run events).
Proof.
  induction events as [|e events IH] using rev_ind.
  - apply reach_first.
  - rewrite run_snoc. by apply reach_step.
Qed.

(** C8.  The refresh token of a login or register response has no
    influence on the session: each operation computes the same outcome,
    state, storage and effects when the refresh token is blanked, and so
    does every sequence of operations, page reloads included.  The
    operations write the keys [access_token] and [user] and no other: a
    successful login or register adds the access token and the stringified
    user to the storage, and every other key keeps its value. *)
Theorem refresh_token_never_stored :
  (forall e w, handle (forget_refresh e) w = handle e w)
  /\ (forall events, run (forget_refresh <$> events) = run events)
  /\ (forall e w k,
        k <> "access_token" -> k <> "user" ->
        localStorage (step e w) !! k = localStorage w !! k)
  /\ (forall c d r w,
        let stored :=
          <["user" := JSON_stringify (auth_user r)]>
            (<["access_token" := access (tokens r)]> (localStorage w)) in
        localStorage (step (do_login c (Fulfilled r)) w) = stored
        /\ localStorage (step (do_register d (Fulfilled r)) w) = stored).
Proof.
  split; [exact handle_forget_refresh|].
  split; [exact run_forget_refresh|].
  split; [exact step_other_keys|].
  intros c d r w. split; reflexivity.
Qed.

(** C7, on the code.  On load the session is restored exactly when both
    [access_token] and [user] are stored with values that are not empty:
    the token is the stored one and the user what [JSON.parse] makes of the
    stored text (the effect throws when it is not JSON); when either is
    missing or empty, token and user stay [null].  A successful login or
    register sets both in the state and writes both to the storage.  Logout
    clears both from the state and the storage however its request
    settles. *)
Theorem session_lifecycle :
  (forall storage,
     let x := init (mounted storage) in
     (forall t u v,
        storage !! "access_token" = Some t -> storage !! "user" = Some u ->
        t <> "" -> u <> "" -> JSON_parse u = Some v ->
        outcome_of x = Fulfilled tt
        /\ token (state_of x) = Some t /\ user (state_of x) = v
        /\ localStorage (state_of x) = storage)
     /\ (storage !! "access_token" = None
         \/ storage !! "access_token" = Some ""
         \/ storage !! "user" = None \/ storage !! "user" = Some "" ->
         outcome_of x = Fulfilled tt
         /\ token (state_of x) = None /\ user (state_of x) = None
         /\ localStorage (state_of x) = storage)
     /\ (forall t u,
          storage !! "access_token" = Some t -> storage !! "user" = Some u ->
          t <> "" -> u <> "" -> JSON_parse u = None ->
          outcome_of x = Rejected syntax_error
          /\ user (state_of x) = None))
  /\ (forall c d r w,
        let stored w' :=
          user w' = Some (auth_user r)
          /\ token w' = Some (access (tokens r))
          /\ localStorage w' !! "access_token" = Some (access (tokens r))
          /\ localStorage w' !! "user"
             = Some (JSON_stringify (auth_user r)) in
        stored (state_of (login c (Fulfilled r) w))
        /\ stored (state_of (register d (Fulfilled r) w)))
  /\ (forall settled w,
        let w' := state_of (logout settled w) in
        user w' = None /\ token w' = None
        /\ localStorage w' !! "access_token" = None
        /\ localStorage w' !! "user" = None).
Proof.
  split; [|split].
  - intros storage x. subst x. rewrite init_mounted. split; [|split].
    + intros t u v -> -> Ht%truthy_string_nonempty
        Hu%truthy_string_nonempty ->. by rewrite Ht, Hu.
    + destruct (storage !! "access_token") as [t|];
        destruct (storage !! "user") as [u|];
        try (by intros [|[|[|]]]).
      intros [|[[= ->]|[|[= ->]]]]; try done.
      by destruct t.
    + intros t u -> -> Ht%truthy_string_nonempty
        Hu%truthy_string_nonempty ->. by rewrite Ht, Hu.
  - intros c d r w. cbv zeta.
    rewrite login_fulfilled, register_fulfilled. cbn.
    rewrite lookup_insert_eq, lookup_insert_ne by done.
    by rewrite lookup_insert_eq.
  - intros settled w. cbv zeta. rewrite logout_any. cbn.
    rewrite lookup_delete_eq, lookup_delete_ne by done.
    by rewrite lookup_delete_eq.
Qed.

Hypothesis parse_stringify :
  forall u, JSON_parse (JSON_stringify u) = Some (Some u).

Lemma session_ok_first : session_ok first_visit.
Proof.
  unfold first_visit. rewrite init_mounted, !lookup_empty.
  split; [done|]. cbn. intros x. by rewrite lookup_empty.
Qed.

Lemma session_ok_step e w : session_ok w -> session_ok (step e w).
Proof.
  intros [Hw Hs]. destruct e as [|c [r|e]|d [r|e]|x]; unfold step, handle.
  - pose proof (step_page_load_storage w) as Hst.
    unfold step, handle in Hst.
    split; [|by rewrite Hst].
    rewrite init_mounted.
    destruct (localStorage w !! "access_token") as [t|]; [|done].
    destruct (localStorage w !! "user") as [u|] eqn:Eu; [|done].
    destruct (truthy t && truthy u); [|done].
    destruct (Hs u eq_refl) as [v ->]. by rewrite parse_stringify.
  - rewrite login_fulfilled. split; [done|]. cbn.
    rewrite lookup_insert_eq. intros ? [= <-]. by eexists.
  - done.
  - rewrite register_fulfilled. split; [done|]. cbn.
    rewrite lookup_insert_eq. intros ? [= <-]. by eexists.
  - by rewrite (proj1 (register_rejected_state d e w)).
  - rewrite logout_any. split; [done|]. cbn.
    by rewrite lookup_delete_eq.
Qed.

Lemma reachable_session_ok w : reachable w -> session_ok w.
Proof.
  induction 1 as [|e w _ IH]; [apply session_ok_first|].
  by apply session_ok_step.
Qed.

(** C9, on the code.  In every world the operations lead to from a first
    visit, [isAuthenticated] holds exactly when the token is a string that
    is not empty, and token and user are [null] together. *)
Theorem reachable_authenticated (w : World) :
  reachable w ->
  (isAuthenticated w = true <-> exists t, token w = Some t /\ t <> "")
  /\ (token w = None <-> user w = None).
Proof.
  intros [Hw _]%reachable_session_ok. split; [|done].
  unfold isAuthenticated. destruct (token w) as [t|]; cbn.
  - rewrite truthy_string_nonempty. split; [by exists t|].
    by intros (? & [= <-] & ?).
  - split; [done|]. by intros (? & ? & ?).
Qed.

End session.


(** ** The session on the sample codec *)

Section session_examples.

Import AuthContext SampleCodec.

Lemma session_lifecycle_witness :
  let storage : gmap string string :=
    <["user" := JSON_stringify alice]>
      (<["access_token" := "header.payload.signature"]> ∅) in
  let w := state_of (init (mounted storage)) in
  token w = Some "header.payload.signature" /\ user w = Some alice.
Proof.
  intros storage w.
  destruct (session_lifecycle (H := codec)) as [Hload _].
  destruct (Hload storage) as [Hrestore _].
  destruct (Hrestore "header.payload.signature" (JSON_stringify alice)
              (Some alice))
    as (_ & Ht & Hu & _);
    [vm_compute; reflexivity | vm_compute; reflexivity | discriminate
    | discriminate | vm_compute; reflexivity |].
  exact (conj Ht Hu).
Defined.

(** A login whose response carries the empty string as access token writes
    both keys; the next page load finds both and restores nothing. *)
Lemma empty_access_token_not_restored :
  let w :=
    step (do_login credentials (Fulfilled signed_in_empty_access))
      first_visit in
  let w' := state_of (init (mounted (localStorage w))) in
  localStorage w !! "access_token" = Some ""
  /\ localStorage w !! "user" = Some (JSON_stringify alice)
  /\ token w' = None /\ user w' = None.
Proof. vm_compute. repeat split; reflexivity. Qed.

Lemma refresh_token_never_stored_witness :
  localStorage (step (do_login credentials (Fulfilled signed_in)) first_visit)
    !! "refresh_token" = None.
Proof.
  destruct (refresh_token_never_stored (H := codec)) as (_ & _ & Hkeys & _).
  rewrite Hkeys; [vm_compute; reflexivity | discriminate | discriminate].
Defined.

Lemma reachable_authenticated_witness :
  let w := run [do_login credentials (Fulfilled signed_in); page_load] in
  (isAuthenticated w = true <-> exists t, token w = Some t /\ t <> "")
  /\ (token w = None <-> user w = None).
Proof.
  apply (reachable_authenticated (H := codec) sample_parse_stringify).
  apply reach_step, reach_step, reach_first.
Defined.

(** After a login whose response carries the empty string as access token,
    the token is not [null] and [isAuthenticated] is false. *)
Lemma empty_access_token_not_authenticated :
  let w :=
    step (do_login credentials (Fulfilled signed_in_empty_access))
      first_visit in
  reachable w /\ token w = Some "" /\ user w = Some alice
  /\ isAuthenticated w = false.
Proof.
  split; [apply reach_step, reach_first|].
  vm_compute. repeat split; reflexivity.
Qed.

End session_examples.

(** * Further properties *)

(** ** The URLs of the services *)

Section service_urls.

Import URLSearchParams.

Lemma toString_inj (a b : Z) : Js.toString a = Js.toString b -> a = b.
Proof.
  unfold Js.toString. intros E.
  assert (Hn : forall z, NilZero.int_of_string
                           (NilZero.string_of_int (Z.to_int z))
                         = Some (Z.to_int z)).
  { intros z. apply NilZero.isi; destruct z; try discriminate; cbn;
      intros [= Hp]; by apply DecimalPos.Unsigned.to_uint_nonnil in Hp. }
  apply DecimalZ.to_int_inj.
  pose proof (Hn a) as Ha. rewrite E, Hn in Ha. congruence.
Qed.

Lemma toString_no_slash n : occurs "/" (Js.toString n) = false.
Proof.
  assert (Hu : forall d, occurs "/" (NilEmpty.string_of_uint d) = false).
  { induction d; simpl; done. }
  assert (Hz : forall d, occurs "/" (NilZero.string_of_uint d) = false).
  { intros []; try apply Hu. done. }
  unfold Js.toString. destruct (Z.to_int n); simpl; apply Hz.
Qed.

(** Two paths that go on with a slash after a number agree only if the
    numbers agree and what follows agrees. *)
Lemma number_segment_inj (a b : Z) (r r' : string) :
  Js.toString a +:+ String "/" r = Js.toString b +:+ String "/" r' ->
  a = b /\ r = r'.
Proof.
  intros E. apply (f_equal (break_on "/")) in E.
  rewrite !break_on_first in E by apply toString_no_slash.
  injection E as Ea Er. split; [by apply toString_inj | done].
Qed.

Lemma singleton_eq (a b : string) : [a] = [b] -> a = b.
Proof. by intros [=]. Qed.

Lemma issue_path_inj p i p' i' (r r' : string) :
  "/projects/" +:+ Js.toString p +:+ "/issues/" +:+ Js.toString i
    +:+ String "/" r
  = "/projects/" +:+ Js.toString p' +:+ "/issues/" +:+ Js.toString i'
      +:+ String "/" r' ->
  p = p' /\ i = i' /\ r = r'.
Proof.
  intros E. apply (inj (String.app "/projects/")) in E.
  change ("/issues/" +:+ ?x) with (String "/" ("issues/" +:+ x)) in E.
  apply number_segment_inj in E as [-> E].
  apply (inj (String.app "issues/")) in E.
  apply number_segment_inj in E as [-> ->]. done.
Qed.

(** X1.  [getIssue], [updateIssue] and [deleteIssue] address one URL per
    issue, and the URL tells the issue: two issue URLs are equal exactly
    when the project ids are equal and the issue ids are equal. *)
Theorem issue_url_identifies_issue {S : Type} :
  (forall (p i : Z) (d : UpdateIssueData) x1 x2 x3 (s : S),
     url <$> requests (effects_of (issueService.updateIssue p i d x2 s))
     = url <$> requests (effects_of (issueService.getIssue p i x1 s))
     /\ url <$> requests (effects_of (issueService.deleteIssue p i x3 s))
        = url <$> requests (effects_of (issueService.getIssue p i x1 s)))
  /\ (forall (p i p' i' : Z) x x' (s s' : S),
        url <$> requests (effects_of (issueService.getIssue p i x s))
        = url <$> requests (effects_of (issueService.getIssue p' i' x' s'))
        <-> p = p' /\ i = i').
Proof.
  split; [by intros|]. intros p i p' i' x x' s s'. split.
  - intros E%singleton_eq. change ("/") with (String "/" "") in E.
    by apply issue_path_inj in E as (-> & -> & _).
  - by intros [-> ->].
Qed.

Lemma issue_url_identifies_issue_witness :
  url <$> requests
            (effects_of (issueService.getIssue 1 23 (Rejected network_error)
                           tt))
  <> url <$> requests
               (effects_of (issueService.getIssue 12 3
                              (Rejected network_error) tt)).
Proof.
  intros E.
  destruct (proj1 (proj2 issue_url_identifies_issue 1 23 12 3 _ _ tt tt) E)
    as [[=] _].
Defined.

(** X2.  The URLs of [updateComment] and [deleteComment] agree for the same
    comment and tell the project, the issue and the comment. *)
Theorem comment_url_identifies_comment {S : Type} :
  (forall (p i c : Z) (d : CreateCommentData) x1 x2 (s : S),
     url <$> requests (effects_of (commentService.updateComment p i c d x1 s))
     = url <$> requests (effects_of (commentService.deleteComment p i c x2 s)))
  /\ (forall (p i c p' i' c' : Z) x x' (s s' : S),
        url <$> requests
                  (effects_of (commentService.deleteComment p i c x s))
        = url <$> requests
                    (effects_of (commentService.deleteComment p' i' c' x' s'))
        <-> p = p' /\ i = i' /\ c = c').
Proof.
  split; [by intros|]. intros p i c p' i' c' x x' s s'. split.
  - intros E%singleton_eq.
    change ("/comments/" +:+ ?y) with (String "/" ("comments/" +:+ y)) in E.
    apply issue_path_inj in E as (-> & -> & E).
    apply (inj (String.app "comments/")) in E.
    change ("/") with (String "/" "") in E.
    by apply number_segment_inj in E as [-> _].
  - by intros (-> & -> & ->).
Qed.

Lemma comment_url_identifies_comment_witness :
  url <$> requests
            (effects_of (commentService.deleteComment 1 2 34
                           (Rejected network_error) tt))
  <> url <$> requests
               (effects_of (commentService.deleteComment 1 23 4
                              (Rejected network_error) tt)).
Proof.
  intros E.
  destruct (proj1 (proj2 comment_url_identifies_comment 1 2 34 1 23 4 _ _
                     tt tt) E) as (_ & [=] & _).
Defined.

(** X3.  The URL of [getProjectIssues] tells the project, the page and the
    search text it was built from (an omitted page counting as 1 and an
    omitted search as the empty text): no two different requests share a
    URL, whatever bytes the search text holds. *)
Theorem getProjectIssues_url_injective {S : Type} (p p' : Z)
    (page page' : option Z) (search search' : option string)
    (x x' : Result (ApiResponse Issue)) (s s' : S) :
  url <$> requests
            (effects_of (issueService.getProjectIssues p page search x s))
  = url <$> requests
              (effects_of
                 (issueService.getProjectIssues p' page' search' x' s'))
  <-> p = p' /\ default 1 page = default 1 page'
      /\ default "" search = default "" search'.
Proof.
  split.
  - intros E%singleton_eq. apply (inj (String.app "/projects/")) in E.
    change ("/issues/?" +:+ ?y) with (String "/" ("issues/?" +:+ y)) in E.
    apply number_segment_inj in E as [-> E].
    apply (inj (String.app "issues/?")) in E.
    apply (f_equal parse) in E. rewrite !parse_toString in E.
    split; [done|].
    destruct (default "" search) as [|a r], (default "" search') as [|a' r'];
      cbn in E; injection E as E; try discriminate.
    + split; [by apply toString_inj | done].
    + split; [by apply toString_inj | congruence].
  - intros (-> & E1 & E2). unfold issueService.getProjectIssues.
    by rewrite E1, E2.
Qed.

Lemma getProjectIssues_url_injective_witness :
  url <$> requests
            (effects_of
               (issueService.getProjectIssues 7 (Some 2) (Some "a&page=3")
                  (Rejected network_error) tt))
  <> url <$> requests
               (effects_of
                  (issueService.getProjectIssues 7 (Some 3) (Some "a")
                     (Rejected network_error) tt)).
Proof.
  intros E.
  destruct (proj1 (getProjectIssues_url_injective 7 7 (Some 2) (Some 3)
                     (Some "a&page=3") (Some "a") _ _ tt tt) E)
    as (_ & [=] & _).
Defined.

End service_urls.

(** ** The issue list of a project *)

Section issue_list.

Import ProjectDetail.

(** What [loadIssues] asks for: the page and the committed search text of
    the state it runs in. *)
Lemma loadIssues_request (id : Z) (settled : Result (ApiResponse Issue))
    (s : State) :
  exists u,
    requests (effects_of (loadIssues id settled s))
    = [ {| method := GET; url := u; body := None |} ]
    /\ URLSearchParams.parse (URLSearchParams.query_of u)
       = ("page", toString (currentPage s))
           :: (if truthy (searchQuery s) then [("search", searchQuery s)]
               else []).
Proof.
  eexists. split; [by destruct settled|].
  rewrite query_of_issues_url, parse_toString. cbn.
  by destruct (searchQuery s).
Qed.

(** X4.  Submitting the search box commits the typed text as the search
    query and goes back to page 1, leaving the rest of the state alone; the
    effect that reloads the list runs again exactly when that changed the
    page or the query; and the list it loads is asked for with page 1 and
    the typed text (no [search] parameter when the text is empty). *)
Theorem handleSearch_restarts_at_page_1 (id : Z)
    (settled : Result (ApiResponse Issue)) (s : State) :
  let s1 := state_of (handleSearch s) in
  s1 = state_of (setCurrentPage 1 (state_of (setSearchQuery (searchInput s) s)))
  /\ (issues_effect_reruns s s1 = true
      <-> currentPage s <> 1 \/ searchQuery s <> searchInput s)
  /\ exists u,
       requests (effects_of (loadIssues id settled s1))
       = [ {| method := GET; url := u; body := None |} ]
       /\ URLSearchParams.parse (URLSearchParams.query_of u)
          = ("page", "1")
              :: (if truthy (searchInput s) then [("search", searchInput s)]
                  else []).
Proof.
  cbv zeta. split; [done|]. split.
  - unfold issues_effect_reruns, issues_deps. cbn.
    rewrite negb_true_iff, bool_decide_eq_false. split.
    + intros Hne. destruct (decide (currentPage s = 1)) as [E1|]; [|tauto].
      right. intros E2. apply Hne. by rewrite E1, E2.
    + intros [Hp|Hq] [= E1 E2]; tauto.
  - apply (loadIssues_request id settled (state_of (handleSearch s))).
Qed.

(** X5.  A click on a page control sets the current page and scrolls to
    the top, touching nothing else; the reload effect runs again exactly
    when the page changed; and the list is then asked for with that page
    and the committed search query, not with text typed in the search box
    and not yet submitted. *)
Theorem handlePageChange_keeps_query (id page : Z)
    (settled : Result (ApiResponse Issue)) (s : State) :
  let x := handlePageChange page s in
  state_of x = state_of (setCurrentPage page s)
  /\ effects_of x = [scroll_to_top]
  /\ (issues_effect_reruns s (state_of x) = true <-> page <> currentPage s)
  /\ exists u,
       requests (effects_of (loadIssues id settled (state_of x)))
       = [ {| method := GET; url := u; body := None |} ]
       /\ URLSearchParams.parse (URLSearchParams.query_of u)
          = ("page", toString page)
              :: (if truthy (searchQuery s) then [("search", searchQuery s)]
                  else []).
Proof.
  cbv zeta. split; [done|]. split; [done|]. split.
  - unfold issues_effect_reruns, issues_deps. cbn.
    rewrite negb_true_iff, bool_decide_eq_false. split.
    + intros Hne E. apply Hne. by rewrite E.
    + intros Hne [= E]. by apply Hne.
  - apply (loadIssues_request id settled (state_of (handlePageChange page s))).
Qed.

Lemma clickable_in_range (s : State) (bar : PaginationBar) (p : Z) :
  pagination_bar s = Some bar ->
  1 <= currentPage s <= totalPages s ->
  In p (clickable bar) -> 1 <= p <= totalPages s.
Proof.
  unfold pagination_bar. intros Hbar Hcur Hp.
  destruct (length (issues s) =? 0)%nat; [done|].
  destruct (1 <? totalPages s); [|done].
  injection Hbar as <-. unfold clickable in Hp. cbn in Hp.
  apply in_app_or in Hp as [Hp|Hp]; [|apply in_app_or in Hp as [Hp|Hp]].
  - destruct (Z.eqb_spec (currentPage s) 1); [done|].
    destruct Hp as [<-|[]]. lia.
  - apply in_map_iff in Hp as (i & <- & Hi). apply in_seq in Hi. lia.
  - destruct (Z.eqb_spec (currentPage s) (totalPages s)); [done|].
    destruct Hp as [<-|[]]. lia.
Qed.

(** X6.  While the current page lies between 1 and [totalPages], every
    click the pagination bar accepts leads to a page in that range: Previous
    is off on page 1, Next is off on the last page, the numbers are those
    of the pages.  The bar belongs to the non-empty list: on an empty page
    there is none, however many pages there are. *)
Theorem pagination_stays_in_range :
  (forall (s : State) (bar : PaginationBar) (p : Z),
     pagination_bar s = Some bar ->
     1 <= currentPage s <= totalPages s ->
     In p (clickable bar) ->
     1 <= currentPage (state_of (handlePageChange p s)) <= totalPages s
     /\ totalPages (state_of (handlePageChange p s)) = totalPages s)
  /\ (forall s : State, issues s = [] -> pagination_bar s = None).
Proof.
  split.
  - intros s bar p Hbar Hcur Hp. split; [|done].
    exact (clickable_in_range s bar p Hbar Hcur Hp).
  - intros s Hs. unfold pagination_bar. by rewrite Hs.
Qed.

End issue_list.

(** ** Loaders and submit handlers *)

Section loaders.

(** X7.  A load whose request is rejected keeps what the page shows: the
    handler swallows the rejection and changes nothing but the loading
    flag.  The two loaders that wait for a pair of requests send both and
    use neither result unless both are fulfilled.  Each failure shows one
    error toast, except on the dashboard, which only logs it. *)
Theorem failed_loads_keep_data :
  (forall (id : Z) (e : JsError) (s : ProjectDetail.State),
     let x := ProjectDetail.loadIssues id (Rejected e) s in
     outcome_of x = Fulfilled tt /\ state_of x = s
     /\ error_toasts (effects_of x) = ["Failed to load issues"])
  /\ (forall (id : Z) (e : JsError) (s : ProjectDetail.State),
        let x := ProjectDetail.loadProject id (Rejected e) s in
        outcome_of x = Fulfilled tt
        /\ state_of x = state_of (ProjectDetail.setIsLoading false s)
        /\ error_toasts (effects_of x) = ["Failed to load project"])
  /\ (forall (e : JsError) (s : Projects.State),
        let x := Projects.loadProjects (Rejected e) s in
        outcome_of x = Fulfilled tt
        /\ state_of x = state_of (Projects.setIsLoading false s)
        /\ error_toasts (effects_of x) = ["Failed to load projects"])
  /\ (forall (rp : Result (ApiResponse Project))
         (ri : Result (ApiResponse Issue)) (s : Dashboard.State),
        let x := Dashboard.loadData rp ri s in
        length (requests (effects_of x)) = 2%nat
        /\ outcome_of x = Fulfilled tt
        /\ error_toasts (effects_of x) = []
        /\ ((forall v w, (rp, ri) <> (Fulfilled v, Fulfilled w)) ->
            state_of x = state_of (Dashboard.setIsLoading false s)))
  /\ (forall (projectId issueId : Z) (ri : Result Issue)
         (rc : Result (list Comment)) (s : IssueDetail.State),
        let x := IssueDetail.loadData projectId issueId ri rc s in
        length (requests (effects_of x)) = 2%nat
        /\ outcome_of x = Fulfilled tt
        /\ ((forall v w, (ri, rc) <> (Fulfilled v, Fulfilled w)) ->
            state_of x = state_of (IssueDetail.setIsLoading false s)
            /\ error_toasts (effects_of x) = ["Failed to load issue"])).
Proof.
  repeat match goal with |- _ /\ _ => split end; intros;
    repeat match goal with x := _ |- _ => subst x end;
    try (repeat split; reflexivity).
  - split; [by destruct rp, ri|]. split; [by destruct rp, ri|].
    split; [by destruct rp, ri|]. intros Hne.
    destruct rp as [v|e], ri as [w|e']; try reflexivity.
    by destruct (Hne v w).
  - split; [by destruct ri, rc|]. split; [by destruct ri, rc|].
    intros Hne.
    destruct ri as [v|e], rc as [w|e']; try (split; reflexivity).
    by destruct (Hne v w).
Qed.

(** X8.  Every loader that owns the loading flag clears it however its
    request settles, so the page never stays on its loading screen;
    [loadIssues] does not touch the flag. *)
Theorem loaders_clear_isLoading :
  (forall id settled s,
     ProjectDetail.isLoading
       (state_of (ProjectDetail.loadProject id settled s)) = false)
  /\ (forall settled s,
        Projects.isLoading (state_of (Projects.loadProjects settled s))
        = false)
  /\ (forall rp ri s,
        Dashboard.isLoading (state_of (Dashboard.loadData rp ri s)) = false)
  /\ (forall projectId issueId ri rc s,
        IssueDetail.isLoading
          (state_of (IssueDetail.loadData projectId issueId ri rc s))
        = false)
  /\ (forall id settled s,
        ProjectDetail.isLoading
          (state_of (ProjectDetail.loadIssues id settled s))
        = ProjectDetail.isLoading s).
Proof.
  repeat match goal with |- _ /\ _ => split end; intros;
    repeat match goal with
           | x : Result _ |- _ => destruct x
           end; reflexivity.
Qed.

(** X9.  A create that succeeds sends the form as it stood when it was
    submitted, then closes the modal and empties the form; on the project
    page it also returns to page 1 and keeps the search, so that the reload
    effect runs again exactly when the page was not 1; the lists in the
    state are left to the loaders it starts.  One success toast is
    shown. *)
Theorem successful_create_resets_form :
  (forall (id : Z) (v : Issue) (s : ProjectDetail.State),
     let x := ProjectDetail.handleSubmit id (Fulfilled v) s in
     requests (effects_of x)
     = [ {| method := POST;
            url := "/projects/" +:+ toString id +:+ "/issues/";
            body := Some (body_create_issue (ProjectDetail.formData s)) |} ]
     /\ state_of x
        = {| ProjectDetail.project := ProjectDetail.project s;
             ProjectDetail.issues := ProjectDetail.issues s;
             ProjectDetail.isLoading := ProjectDetail.isLoading s;
             ProjectDetail.showModal := false;
             ProjectDetail.formData := ProjectDetail.empty_form;
             ProjectDetail.isSubmitting := false;
             ProjectDetail.currentPage := 1;
             ProjectDetail.totalPages := ProjectDetail.totalPages s;
             ProjectDetail.searchQuery := ProjectDetail.searchQuery s;
             ProjectDetail.searchInput := ProjectDetail.searchInput s |}
     /\ success_toasts (effects_of x) = ["Issue created successfully"]
     /\ error_toasts (effects_of x) = []
     /\ (ProjectDetail.issues_effect_reruns s (state_of x) = true
         <-> ProjectDetail.currentPage s <> 1))
  /\ (forall (v : Project) (s : Projects.State),
        let x := Projects.handleSubmit (Fulfilled v) s in
        requests (effects_of x)
        = [ {| method := POST; url := "/projects/";
               body := Some (body_create_project (Projects.formData s)) |} ]
        /\ state_of x
           = {| Projects.projects := Projects.projects s;
                Projects.isLoading := Projects.isLoading s;
                Projects.showModal := false;
                Projects.formData := Projects.empty_form;
                Projects.isSubmitting := false |}
        /\ success_toasts (effects_of x) = ["Project created successfully"]
        /\ error_toasts (effects_of x) = []).
Proof.
  split; intros; subst x; repeat split; try reflexivity.
  - unfold ProjectDetail.issues_effect_reruns, ProjectDetail.issues_deps.
    cbn. rewrite negb_true_iff, bool_decide_eq_false.
    intros Hne E. apply Hne. by rewrite E.
  - unfold ProjectDetail.issues_effect_reruns, ProjectDetail.issues_deps.
    cbn. rewrite negb_true_iff, bool_decide_eq_false.
    intros Hne [= E]. by apply Hne.
Qed.

Import IssueDetail.

(** X10.  The submit handlers never let a rejection escape and always
    leave [isSubmitting] false once a request was made; a comment whose
    trim is empty returns before the flag is touched. *)
Theorem submit_handlers_release_isSubmitting :
  (forall id settled s,
     let x := ProjectDetail.handleSubmit id settled s in
     outcome_of x = Fulfilled tt
     /\ ProjectDetail.isSubmitting (state_of x) = false)
  /\ (forall settled s,
        let x := Projects.handleSubmit settled s in
        outcome_of x = Fulfilled tt
        /\ Projects.isSubmitting (state_of x) = false)
  /\ (forall projectId issueId settled s,
        let x := handleSubmitComment projectId issueId settled s in
        outcome_of x = Fulfilled tt
        /\ isSubmitting (state_of x)
           = if truthy (trim (newComment s)) then false else isSubmitting s)
  /\ (forall projectId issueId newStatus settled s,
        let x := handleStatusChange projectId issueId newStatus settled s in
        outcome_of x = Fulfilled tt /\ state_of x = s).
Proof.
  repeat match goal with |- _ /\ _ => split end; intros;
    repeat match goal with x := _ |- _ => subst x end;
    try (destruct settled; split; reflexivity);
    unfold handleSubmitComment; exec;
    destruct (truthy (trim (newComment s))), settled; split; reflexivity.
Qed.

(** X11.  [handleSubmitComment] does not look at [isSubmitting]: its
    effects are the same whatever the flag, so a submit made while one is
    in flight sends a second request.  When the submit button is enabled,
    submitting sends exactly one request; a fulfilled one empties the
    draft. *)
Theorem handleSubmitComment_ignores_isSubmitting (projectId issueId : Z)
    (settled : Result Comment) (s : State) :
  (forall b,
     effects_of
       (handleSubmitComment projectId issueId settled
          (state_of (setIsSubmitting b s)))
     = effects_of (handleSubmitComment projectId issueId settled s))
  /\ (submit_disabled s = false ->
      length
        (requests
           (effects_of (handleSubmitComment projectId issueId settled s)))
      = 1%nat
      /\ forall v,
           newComment
             (state_of
                (handleSubmitComment projectId issueId (Fulfilled v) s))
           = "").
Proof.
  split.
  - intros b. unfold handleSubmitComment. exec.
    destruct (truthy (trim (newComment s))), settled; reflexivity.
  - unfold submit_disabled. intros [_ Ht%negb_false_iff]%orb_false_elim.
    split.
    + by rewrite handleSubmitComment_requests.
    + intros v. unfold handleSubmitComment. exec. by rewrite Ht.
Qed.

End loaders.

(** ** More on the session *)

Section session_errors.

Import AuthContext.
Context `{JSON}.

(** X12.  A rejected login changes neither the state nor the storage,
    shows one error toast, with the message of the response when it has a
    non-empty one and [Login failed] otherwise, and throws the error on to
    its caller. *)
Theorem login_rejection_rethrown (c : LoginCredentials) (e : JsError)
    (w : World) :
  let x := login c (Rejected e) w in
  outcome_of x = Rejected e /\ state_of x = w
  /\ success_toasts (effects_of x) = []
  /\ (forall m, response_message e = Some m -> m <> "" ->
      error_toasts (effects_of x) = [m])
  /\ (response_message e = None \/ response_message e = Some "" ->
      error_toasts (effects_of x) = ["Login failed"]).
Proof.
  cbv zeta. rewrite login_rejected. repeat split.
  - intros m -> Hm. by destruct m.
  - by intros [->| ->].
Qed.

(** X13.  A rejected register changes neither the state nor the storage
    and throws the error on.  When the response has a [details] object, the
    toasts are its messages, field by field in order, and the general
    message is not shown, so an empty [details] object shows no toast at
    all; without [details] one toast shows the message of the response, or
    [Registration failed] when it has none. *)
Theorem register_rejection_toasts (d : RegisterData) (e : JsError)
    (w : World) :
  let x := register d (Rejected e) w in
  outcome_of x = Rejected e /\ state_of x = w
  /\ success_toasts (effects_of x) = []
  /\ (forall details, response_details e = Some details ->
      error_toasts (effects_of x) = concat (snd <$> details))
  /\ (response_details e = None ->
      error_toasts (effects_of x)
      = [or_else (response_message e) "Registration failed"]).
Proof.
  assert (Hmsgs : forall l : list string,
            error_toasts (toast_error <$> l) = l).
  { induction l as [|m l IH]; [done|].
    change (m :: error_toasts (toast_error <$> l) = m :: l).
    by rewrite IH. }
  assert (Hnone : forall l : list string,
            success_toasts (toast_error <$> l) = []).
  { induction l as [|m l IH]; [done|]. exact IH. }
  cbv zeta. unfold register. exec.
  destruct (response_details e) as [details|]; cbn.
  - unfold toast_details. cbn. rewrite app_nil_r.
    repeat split; [apply Hnone | intros ? [= <-]; apply Hmsgs | done].
  - repeat split; done.
Qed.

End session_errors.

Section session_round_trips.

Import AuthContext.
Context `{JSON}.

Lemma sign_in_overwrites (m : gmap string string) (a a' u u' : string) :
  <["user" := u']> (<["access_token" := a']>
     (<["user" := u]> (<["access_token" := a]> m)))
  = <["user" := u']> (<["access_token" := a']> m).
Proof.
  apply map_eq. intros k. rewrite !lookup_insert.
  by repeat case_decide.
Qed.

Lemma sign_out_idempotent (m : gmap string string) :
  delete "user" (delete "access_token"
    (delete "user" (delete "access_token" m)))
  = delete "user" (delete "access_token" m).
Proof.
  apply map_eq. intros k. rewrite !lookup_delete.
  by repeat case_decide.
Qed.

(** X14.  Logging out ends the session for good: however the logout
    request settles, the next page load finds no session and the protected
    route sends the visitor to the login page; logging out again changes
    nothing. *)
Theorem logout_ends_session (settled settled' : Result unit) (w : World) :
  let w1 := step (do_logout settled) w in
  let w2 := step page_load w1 in
  token w2 = None /\ user w2 = None /\ isLoading w2 = false
  /\ localStorage w2 = localStorage w1
  /\ ProtectedRoute.render w2 = ProtectedRoute.redirect "/login"
  /\ step (do_logout settled') w1 = w1.
Proof.
  cbv zeta. unfold step, handle. rewrite !logout_any. cbn.
  rewrite init_mounted, lookup_delete_ne, lookup_delete_eq by done.
  repeat split. cbn. by rewrite sign_out_idempotent.
Qed.

(** X15.  Signing in replaces the session: after a second successful login
    or register the state and the storage are what that one alone would
    have left, with nothing of the first. *)
Theorem last_sign_in_wins (c c' : LoginCredentials) (d d' : RegisterData)
    (r r' : AuthResponse) (w : World) :
  let after e := step e w in
  step (do_login c' (Fulfilled r')) (after (do_login c (Fulfilled r)))
  = after (do_login c' (Fulfilled r'))
  /\ step (do_login c' (Fulfilled r')) (after (do_register d (Fulfilled r)))
     = after (do_login c' (Fulfilled r'))
  /\ step (do_register d' (Fulfilled r')) (after (do_login c (Fulfilled r)))
     = after (do_register d' (Fulfilled r')).
Proof.
  cbv zeta. unfold step, handle.
  rewrite !login_fulfilled, !register_fulfilled. cbn.
  by rewrite !sign_in_overwrites.
Qed.

Hypothesis parse_stringify :
  forall u, JSON_parse (JSON_stringify u) = Some (Some u).
Hypothesis stringify_nonempty : forall u, JSON_stringify u <> "".

(** X16.  A session survives a page load: after a successful login or
    register whose access token is not empty, reloading the page restores
    the same token and the same user from the storage, leaves the storage
    as it was, and the protected route shows its children. *)
Theorem sign_in_survives_reload (c : LoginCredentials) (d : RegisterData)
    (r : AuthResponse) (w : World) :
  access (tokens r) <> "" ->
  let restored w1 :=
    let w2 := step page_load w1 in
    token w2 = Some (access (tokens r)) /\ user w2 = Some (auth_user r)
    /\ localStorage w2 = localStorage w1 /\ isLoading w2 = false
    /\ ProtectedRoute.render w2 = ProtectedRoute.children in
  restored (step (do_login c (Fulfilled r)) w)
  /\ restored (step (do_register d (Fulfilled r)) w).
Proof.
  intros Ha%truthy_string_nonempty. cbv zeta.
  pose proof (stringify_nonempty (auth_user r)) as Hu%truthy_string_nonempty.
  unfold step, handle. rewrite login_fulfilled, register_fulfilled. cbn.
  rewrite init_mounted, lookup_insert_eq, lookup_insert_ne by done.
  rewrite lookup_insert_eq, Ha, Hu, parse_stringify. cbn.
  unfold ProtectedRoute.render, isAuthenticated. cbn. rewrite Ha. done.
Qed.

Lemma reachable_loaded w : reachable w -> isLoading w = false.
Proof.
  induction 1 as [|e w Hw IH].
  - unfold first_visit. by rewrite init_mounted, !lookup_empty.
  - apply (reachable_session_ok parse_stringify) in Hw as [_ Hs].
    destruct e as [|c [r|e]|d [r|e]|x]; unfold step, handle.
    + rewrite init_mounted.
      destruct (localStorage w !! "access_token") as [t|]; [|done].
      destruct (localStorage w !! "user") as [u|]; [|done].
      destruct (truthy t && truthy u); [|done].
      destruct (Hs u eq_refl) as [v ->]. by rewrite parse_stringify.
    + by rewrite login_fulfilled.
    + done.
    + by rewrite register_fulfilled.
    + by rewrite (proj1 (register_rejected_state d e w)).
    + by rewrite logout_any.
Qed.

(** X17.  On every page load the provider first renders with its initial
    values, and there the protected route shows [Loading...] and does not
    redirect, whatever the storage holds; once the mount effect has run,
    loading is over.  In every world the provider renders in, the route
    shows [Loading...] exactly while [isLoading], which happens only with
    no token and no user; it shows its children exactly when loading is
    over and [isAuthenticated] holds, and then the context has a token that
    is not empty and a user; it redirects to the login page exactly when
    loading is over and [isAuthenticated] does not hold.  A first visit
    ends redirected. *)
Theorem protected_route_guards :
  (forall storage,
     ProtectedRoute.render (mounted storage) = ProtectedRoute.loading)
  /\ (forall w, reachable w -> isLoading w = false)
  /\ (forall w, rendered w ->
        (ProtectedRoute.render w = ProtectedRoute.loading
         <-> isLoading w = true)
        /\ (isLoading w = true -> token w = None /\ user w = None)
        /\ (ProtectedRoute.render w = ProtectedRoute.children
            <-> isLoading w = false /\ isAuthenticated w = true)
        /\ (ProtectedRoute.render w = ProtectedRoute.children ->
            exists t u, token w = Some t /\ t <> "" /\ user w = Some u)
        /\ (ProtectedRoute.render w = ProtectedRoute.redirect "/login"
            <-> isLoading w = false /\ isAuthenticated w = false))
  /\ ProtectedRoute.render first_visit = ProtectedRoute.redirect "/login".
Proof.
  split; [done|]. split; [exact reachable_loaded|]. split.
  - assert (Hmount : forall storage,
              let w := mounted storage in
              isLoading w = true /\ token w = None /\ user w = None)
      by done.
    assert (Hcases : forall w,
              (isLoading w = true /\ token w = None /\ user w = None)
              \/ (isLoading w = false
                  /\ (token w = None <-> user w = None)) ->
              (ProtectedRoute.render w = ProtectedRoute.loading
               <-> isLoading w = true)
              /\ (isLoading w = true -> token w = None /\ user w = None)
              /\ (ProtectedRoute.render w = ProtectedRoute.children
                  <-> isLoading w = false /\ isAuthenticated w = true)
              /\ (ProtectedRoute.render w = ProtectedRoute.children ->
                  exists t u, token w = Some t /\ t <> "" /\ user w = Some u)
              /\ (ProtectedRoute.render w = ProtectedRoute.redirect "/login"
                  <-> isLoading w = false /\ isAuthenticated w = false)).
    { intros w. unfold ProtectedRoute.render, isAuthenticated.
      intros [(Hl & Ht & Hu)|(Hl & Htu)]; rewrite Hl.
      - rewrite Ht. cbn. repeat split; try done; by intros [? ?].
      - destruct (token w) as [t|]; cbn.
        + destruct (truthy t) eqn:Et; cbn.
          * repeat split; try done; try (by intros [? ?]).
            intros _. destruct (user w) as [u|].
            -- exists t, u. by apply truthy_string_nonempty in Et.
            -- discriminate (proj2 Htu eq_refl).
          * repeat split; try done; by intros [? ?].
        + repeat split; try done; by intros [? ?]. }
    intros w Hw. destruct Hw as [|w Hw|w Hw]; apply Hcases.
    + left. apply (Hmount ∅).
    + left. apply (Hmount (localStorage w)).
    + right. split; [by apply reachable_loaded|].
      by apply (reachable_session_ok parse_stringify) in Hw as [Htu _].
  - unfold first_visit. by rewrite init_mounted, !lookup_empty.
Qed.

End session_round_trips.

(** ** The sign-in pages *)

Section sign_in_pages.

Context `{JSON}.

(** X18.  The login page sends the username and password as typed.  When
    the login is fulfilled the session is the one the context's [login]
    sets up and the router moves to the dashboard; when it is rejected the
    page stays where it is, the session is untouched, and the only toast
    is the one of the context.  Either way the handler settles without
    throwing and the page is no longer loading. *)
Theorem login_page_navigates_on_success :
  (forall (r : AuthResponse) (s : Login.State) (env : Env),
     let c := {| login_username := Login.username s;
                 login_password := Login.password s |} in
     let x := Login.handleSubmit (Fulfilled r) (s, env) in
     outcome_of x = Fulfilled tt
     /\ state_of x
        = ({| Login.username := Login.username s;
              Login.password := Login.password s;
              Login.isLoading := false |},
           {| router := "/dashboard" :: router env;
              auth := state_of (AuthContext.login c (Fulfilled r)
                                  (auth env)) |})
     /\ requests (effects_of x)
        = [ {| method := POST; url := "/auth/login/";
               body := Some (body_login c) |} ])
  /\ (forall (e : JsError) (s : Login.State) (env : Env),
        let x := Login.handleSubmit (Rejected e) (s, env) in
        outcome_of x = Fulfilled tt
        /\ state_of x
           = ({| Login.username := Login.username s;
                 Login.password := Login.password s;
                 Login.isLoading := false |}, env)
        /\ error_toasts (effects_of x)
           = [or_else (response_message e) "Login failed"]).
Proof.
  split.
  - intros r s env c x. subst c x. repeat split.
  - intros e s [h w] x. subst x. repeat split.
Qed.

(** X19.  The register page sends its form.  When the registration is
    fulfilled the session is the one the context's [register] sets up and
    the router moves to the dashboard; when it is rejected the page stays
    where it is, the session is untouched, and the toasts are those of the
    context.  Either way the handler settles without throwing and the page
    is no longer loading. *)
Theorem register_page_navigates_on_success :
  (forall (r : AuthResponse) (s : Register.State) (env : Env),
     let x := Register.handleSubmit (Fulfilled r) (s, env) in
     outcome_of x = Fulfilled tt
     /\ state_of x
        = ({| Register.formData := Register.formData s;
              Register.isLoading := false |},
           {| router := "/dashboard" :: router env;
              auth := state_of (AuthContext.register (Register.formData s)
                                  (Fulfilled r) (auth env)) |})
     /\ requests (effects_of x)
        = [ {| method := POST; url := "/auth/register/";
               body := Some (body_register (Register.formData s)) |} ])
  /\ (forall (e : JsError) (s : Register.State) (env : Env),
        let x := Register.handleSubmit (Rejected e) (s, env) in
        outcome_of x = Fulfilled tt
        /\ state_of x
           = ({| Register.formData := Register.formData s;
                 Register.isLoading := false |}, env)
        /\ error_toasts (effects_of x)
           = error_toasts
               (effects_of
                  (AuthContext.register (Register.formData s) (Rejected e)
                     (auth env)))).
Proof.
  split.
  - intros r s env x. subst x. repeat split.
  - intros e s [h w] x. subst x.
    unfold Register.handleSubmit, AuthContext.register, on_auth, on_page.
    exec. destruct (response_details e) as [details|]; cbn.
    + unfold AuthContext.toast_details. cbn. rewrite !app_nil_r.
      repeat split. unfold error_toasts.
      rewrite !omap_app. cbn. by rewrite app_nil_r.
    + repeat split.
Qed.

End sign_in_pages.

Section safe_urls.

Import URLSearchParams.

Lemma all_bytes_app ok a b :
  all_bytes ok (a +:+ b) = all_bytes ok a && all_bytes ok b.
Proof.
  induction a as [|c a IH]; [done|].
  change (ok c && all_bytes ok (a +:+ b)
          = ok c && all_bytes ok a && all_bytes ok b).
  by rewrite IH, andb_assoc.
Qed.

Lemma serialize_byte_url_bytes c : all_bytes url_byte (serialize_byte c) = true.
Proof. destruct c as [[] [] [] [] [] [] [] []]; reflexivity. Qed.

Lemma serialize_string_url_bytes s :
  all_bytes url_byte (serialize_string s) = true.
Proof.
  induction s as [|c r IH]; [done|]. cbn [serialize_string].
  by rewrite all_bytes_app, serialize_byte_url_bytes, IH.
Qed.

Lemma toString_params_url_bytes params :
  all_bytes url_byte (toString params) = true.
Proof.
  assert (Hp : forall p, all_bytes url_byte (serialize_pair p) = true).
  { intros [n v]. unfold serialize_pair. cbn [fst snd].
    rewrite !all_bytes_app, !serialize_string_url_bytes. done. }
  induction params as [|p ps IH]; [done|].
  destruct ps as [|p' ps]; [apply Hp|].
  change (toString (p :: p' :: ps))
    with (serialize_pair p +:+ "&" +:+ toString (p' :: ps)).
  by rewrite !all_bytes_app, Hp, IH.
Qed.

Lemma toString_number_url_bytes n : all_bytes url_byte (Js.toString n) = true.
Proof.
  assert (Hu : forall d, all_bytes url_byte (NilEmpty.string_of_uint d) = true).
  { induction d; simpl; done. }
  assert (Hz : forall d, all_bytes url_byte (NilZero.string_of_uint d) = true).
  { intros []; try apply Hu. done. }
  unfold Js.toString. destruct (Z.to_int n); simpl; apply Hz.
Qed.

(** X20.  Whatever bytes the search text holds, the URL of
    [getProjectIssues] is made of ASCII letters and digits, of [*], [-],
    [.], [_], of the [+] and [%] of the encoding and of the delimiters [/],
    [?], [&], [=]: no space, no [#], no byte above 127 reaches the URL
    unencoded. *)
Theorem getProjectIssues_url_bytes {S : Type} (projectId : Z)
    (page : option Z) (search : option string)
    (settled : Result (ApiResponse Issue)) (s : S) :
  exists u,
    requests
      (effects_of
         (issueService.getProjectIssues projectId page search settled s))
    = [ {| method := GET; url := u; body := None |} ]
    /\ all_bytes url_byte u = true.
Proof.
  eexists. split; [reflexivity|].
  rewrite !all_bytes_app, toString_number_url_bytes,
    toString_params_url_bytes. done.
Qed.

End safe_urls.

(** ** The further properties on sample data *)

Section further_examples.

Import AuthContext SampleCodec.

Lemma sample_stringify_nonempty u : JSON_stringify u <> "".
Proof. done. Qed.

Lemma pagination_stays_in_range_witness :
  1 <= ProjectDetail.currentPage
         (state_of (ProjectDetail.handlePageChange 2 last_page_of_three))
    <= 3.
Proof.
  destruct pagination_stays_in_range as [Hrange _].
  destruct (Hrange last_page_of_three
              {| ProjectDetail.previous_disabled := false;
                 ProjectDetail.previous_page := 2;
                 ProjectDetail.numbers := [1; 2; 3];
                 ProjectDetail.next_disabled := true;
                 ProjectDetail.next_page := 4 |} 2)
    as [Hp _]; [reflexivity | cbn; lia | cbn; tauto | exact Hp].
Defined.

Lemma failed_loads_keep_data_witness :
  state_of
    (Dashboard.loadData (Fulfilled bare_envelope) (Rejected network_error)
       Dashboard.initial)
  = state_of (Dashboard.setIsLoading false Dashboard.initial).
Proof.
  destruct failed_loads_keep_data as (_ & _ & _ & Hd & _).
  destruct (Hd (Fulfilled bare_envelope) (Rejected network_error)
              Dashboard.initial) as (_ & _ & _ & Hs).
  apply Hs. intros v w. discriminate.
Defined.

Lemma handleSubmitComment_ignores_isSubmitting_witness :
  IssueDetail.submit_disabled draft_in_flight = true
  /\ length
       (requests
          (effects_of
             (IssueDetail.handleSubmitComment 7 3 (Fulfilled sample_comment)
                draft_in_flight)))
     = 1%nat.
Proof.
  split; [reflexivity|].
  destruct (handleSubmitComment_ignores_isSubmitting 7 3
              (Fulfilled sample_comment) draft_ready) as [Hsame Hone].
  destruct (Hone eq_refl) as [Hlen _].
  change draft_in_flight
    with (state_of (IssueDetail.setIsSubmitting true draft_ready)).
  rewrite Hsame. exact Hlen.
Defined.

Lemma login_rejection_rethrown_witness :
  error_toasts
    (effects_of
       (login credentials (Rejected invalid_credentials) first_visit))
  = ["Invalid credentials"].
Proof.
  destruct (login_rejection_rethrown (H := codec) credentials
              invalid_credentials first_visit) as (_ & _ & _ & Hm & _).
  apply Hm; [reflexivity | discriminate].
Defined.

Lemma register_rejection_toasts_witness :
  error_toasts
    (effects_of (register sign_up (Rejected validation_failed) first_visit))
  = ["A user with that username already exists.";
     "This password is too short."; "This password is too common."].
Proof.
  destruct (register_rejection_toasts (H := codec) sign_up
              validation_failed first_visit) as (_ & _ & _ & Hd & _).
  exact (Hd _ eq_refl).
Defined.

Lemma sign_in_survives_reload_witness :
  let w :=
    step page_load (step (do_login credentials (Fulfilled signed_in))
                      first_visit) in
  token w = Some "header.payload.signature" /\ user w = Some alice.
Proof.
  destruct (sign_in_survives_reload (H := codec) sample_parse_stringify
              sample_stringify_nonempty credentials sign_up signed_in
              first_visit) as [(Ht & Hu & _) _]; [discriminate|].
  exact (conj Ht Hu).
Defined.

Lemma protected_route_guards_witness :
  let w := step (do_login credentials (Fulfilled signed_in)) first_visit in
  ProtectedRoute.render w = ProtectedRoute.children
  /\ ProtectedRoute.render (mounted (localStorage w))
     = ProtectedRoute.loading.
Proof.
  intros w.
  destruct (protected_route_guards (H := codec) sample_parse_stringify)
    as (_ & _ & Hr & _).
  assert (Hw : reachable w) by apply reach_step, reach_first.
  split.
  - destruct (Hr w (rendered_settled w Hw)) as (_ & _ & Hc & _).
    apply Hc. split; vm_compute; reflexivity.
  - destruct (Hr _ (rendered_mount w Hw)) as (Hl & _).
    apply Hl. reflexivity.
Defined.

End further_examples.
